(** * Pytest-Sequence-Reporter: the plugin's hooks and their properties

    A shallow embedding of [pytest_sequence_reporter/plugin.py].  The module
    globals become one record threaded through the hooks, the dictionaries
    become finite maps, the calls to the HTTP client become an answer given
    to each hook together with a trace of what the hook did, and the
    [try]/[except]/[finally] of the hooks is written out. *)

From Stdlib Require Import ZArith QArith Qcanon Ascii String.
From stdpp Require Import gmap strings list fin_maps pretty.

Local Open Scope list_scope.
Local Open Scope string_scope.

(** ** Python values *)

(** The values that [json] can encode: the option defaults and help texts
    are such values, and so are the values of user properties as a rule. *)
#[warnings="-register-all"]
Inductive pyval : Type :=
| PyNone
| PyBool (b : bool)
| PyInt (z : Z)
| PyStr (s : string)
| PyList (l : list pyval).

(** Python's truth value testing, as [if x], [x and y] and [not x] use it. *)
Definition truthy (v : pyval) : bool :=
  match v with
  | PyNone => false
  | PyBool b => b
  | PyInt z => negb (z =? 0)%Z
  | PyStr s => negb (String.eqb s "")
  | PyList l => match l with [] => false | _ :: _ => true end
  end.

(** The value of a user property is whatever the test recorded: a value
    that [json] can encode, or any other object (a set, an instance of a
    class), kept by its [repr]. *)
Inductive property_value : Type :=
| JsonValue (v : pyval)
| OtherObject (repr : string).

(** ** Phase reports *)

(** The attributes of pytest's [TestReport] that the plugin reads.
    [wasxfail] is an attribute that a report may lack: [None] is a report
    without it.  Durations are seconds.  The host has them as floating point
    numbers; here they are exact rationals, so that the development says
    which durations a total is made of and nothing about the digits that the
    floating point sum has. *)
Record TestReport : Type := {
  rep_nodeid : string;
  rep_when : string;
  rep_outcome : string;
  rep_duration : Qc;
  rep_wasxfail : option string;
  rep_user_properties : list (string * property_value)
}.

(** [getattr(report, 'wasxfail', False)] *)
Definition getattr_wasxfail (r : TestReport) : pyval :=
  match rep_wasxfail r with
  | Some reason => PyStr reason
  | None => PyBool false
  end.

(** The expected-failure mark as the plugin reads it: the truth value of
    [getattr(report, 'wasxfail', False)]. *)
Definition marked_xfail (r : TestReport) : bool := truthy (getattr_wasxfail r).

(** The inner dictionary [test_reports[nodeid]]: phase name to report. *)
Abbreviation phase_reports := (gmap string TestReport).

(** [rep and rep.outcome == 'failed' and not getattr(rep, 'wasxfail', False)]
    for [rep = reports.get(phase)]: an absent phase is [None], which is
    false, and a report object is true. *)
Definition failed_unexpectedly (rep : option TestReport) : bool :=
  match rep with
  | None => false
  | Some r => String.eqb (rep_outcome r) "failed" && negb (marked_xfail r)
  end.

(** The overall outcome, lines 124 to 157 of [pytest_runtest_logreport]. *)
Definition reconcile_outcome (reports : phase_reports) : string :=
  let setup_report := reports !! "setup" in
  let call_report := reports !! "call" in
  let teardown_report := reports !! "teardown" in
  if failed_unexpectedly setup_report || failed_unexpectedly teardown_report
  then "error"
  else
    match call_report with
    | Some call =>
        if marked_xfail call then
          if String.eqb (rep_outcome call) "passed" then "xpassed" else "xfailed"
        else
          if String.eqb (rep_outcome call) "passed" then "passed"
          else if String.eqb (rep_outcome call) "failed" then "failed"
          else if String.eqb (rep_outcome call) "skipped" then "skipped"
          else rep_outcome call
    | None =>
        match setup_report with
        | Some setup =>
            if String.eqb (rep_outcome setup) "skipped" then "skipped" else "error"
        | None => "error"
        end
    end.

(** [sum(rep.duration for rep in reports.values() if rep)]: every stored
    value is a report object, hence true.  The sum is exact here and so does
    not depend on the order of the values; Python adds the floating point
    durations in the order in which the phases were stored, and rounds. *)
Definition total_duration (reports : phase_reports) : Qc :=
  map_fold (fun _ rep acc => (acc + rep_duration rep)%Qc) 0%Qc reports.

(** The loop over [['call', 'setup', 'teardown']] that gathers the user
    properties, lines 162 to 166. *)
Definition phase_properties (reports : phase_reports) (phase : string)
  : list (string * property_value) :=
  match reports !! phase with
  | Some phase_report =>
      match rep_user_properties phase_report with
      | [] => []
      | ps => ps
      end
  | None => []
  end.

Definition collect_user_properties (reports : phase_reports)
  : list (string * property_value) :=
  foldl (fun acc phase => (acc ++ phase_properties reports phase)%list) []
        ["call"; "setup"; "teardown"].

(** ** Messages, the HTTP client and the trace of a hook *)

(** The dictionaries handed to [requests.post(..., json=message)]. *)
Inductive message : Type :=
| test_started (test_id : string)
| test_finished (test_id outcome : string) (duration : Qc)
                (details : list (string * property_value)).

(** The response object of the HTTP client, as far as [raise_for_status]
    reads it. *)
Record response : Type := {
  status_code : Z;
  reason : string;
  url : string
}.

(** Exceptions.  [HTTPError] is what [raise_for_status] raises and
    [TransportError] stands for what [requests.post] raises when the request
    does not get a response (connection refused, timeout, invalid URL, ...):
    both are [requests.RequestException]s.  [Exit] is [pytest.exit]'s
    exception.  [OtherError] is any exception of another class. *)
Inductive exn : Type :=
| HTTPError (http_error_msg : string)
| TransportError (cause : string)
| Exit (msg : string) (returncode : Z)
| OtherError (cause : string).

(** [isinstance(e, requests.RequestException)] *)
Definition is_RequestException (e : exn) : bool :=
  match e with
  | HTTPError _ | TransportError _ => true
  | Exit _ _ | OtherError _ => false
  end.

(** [str(e)] *)
Definition exn_str (e : exn) : string :=
  match e with
  | HTTPError m | TransportError m | OtherError m | Exit m _ => m
  end.

(** [Response.raise_for_status] of the HTTP client: an [HTTPError] for the
    client errors (4xx) and the server errors (5xx), nothing otherwise. *)
Definition raise_for_status (r : response) : option exn :=
  if ((400 <=? status_code r) && (status_code r <? 500))%Z then
    Some (HTTPError (pretty (status_code r) ++ " Client Error: " ++ reason r
                       ++ " for url: " ++ url r))
  else if ((500 <=? status_code r) && (status_code r <? 600))%Z then
    Some (HTTPError (pretty (status_code r) ++ " Server Error: " ++ reason r
                       ++ " for url: " ++ url r))
  else None.

(** What a call of [requests.post] does: it returns a response or raises. *)
Inductive post_result : Type :=
| Returns (r : response)
| Raises (e : exn).

(** What a hook does to the outside, in order. *)
Inductive effect : Type :=
| Print (line : string)
| Post (target : string) (json : message)
| PrintExc (e : exn).

Definition is_post (ev : effect) : bool :=
  match ev with Post _ _ => true | _ => false end.

(** The delivery attempts in a trace. *)
Definition posts (tr : list effect) : list effect := List.filter is_post tr.

(** ** The module globals *)

(** An entry of [custom_options]: the dictionary with the keys [name],
    [default] and [help], in this order. *)
Record custom_option : Type := {
  opt_name : string;
  opt_default : pyval;
  opt_help : pyval
}.

Record globals : Type := {
  custom_options : list custom_option;
  sequencer_reporting_enabled : bool;
  sequencer_api_url : string;
  test_reports : gmap string phase_reports
}.

Definition API_ENDPOINT : string := "/message".

(** The module as it is when imported. *)
Definition initial_globals : globals :=
  {| custom_options := [];
     sequencer_reporting_enabled := false;
     sequencer_api_url := "http://localhost:8765/";
     test_reports := ∅ |}.

Definition set_custom_options (g : globals) (os : list custom_option) : globals :=
  {| custom_options := os;
     sequencer_reporting_enabled := sequencer_reporting_enabled g;
     sequencer_api_url := sequencer_api_url g;
     test_reports := test_reports g |}.

Definition set_test_reports (g : globals) (tr : gmap string phase_reports)
  : globals :=
  {| custom_options := custom_options g;
     sequencer_reporting_enabled := sequencer_reporting_enabled g;
     sequencer_api_url := sequencer_api_url g;
     test_reports := tr |}.

(** What a hook leaves behind: the globals after it, what it did, and the
    exception that left it, if any ([None]: the hook returned). *)
Record hook_result : Type := {
  after : globals;
  trace : list effect;
  raised : option exn
}.

(** ** Options *)

(** [kwargs.get(key)] *)
Fixpoint kwargs_get (kwargs : list (string * pyval)) (key : string) : pyval :=
  match kwargs with
  | [] => PyNone
  | (k, v) :: rest => if String.eqb k key then v else kwargs_get rest key
  end.

(** [add_custom_option(parser, name, **kwargs)]; the parser of the host is
    not part of the globals. *)
Definition add_custom_option (g : globals) (name : string)
    (kwargs : list (string * pyval)) : globals :=
  set_custom_options g
    (custom_options g ++
       [{| opt_name := name;
           opt_default := kwargs_get kwargs "default";
           opt_help := kwargs_get kwargs "help" |}]).

(** The three options of the plugin.  Of the keyword arguments only
    [default] and [help] are read; [type=str] of the last option is a class
    and is left out. *)
Definition pytest_addoption (g : globals) : globals :=
  let g := add_custom_option g "--enable-sequencer-reporting"
             [("action", PyStr "store_true"); ("default", PyBool false);
              ("help", PyStr "Enable notifications to the test sequencer GUI.")] in
  let g := add_custom_option g "--list-options"
             [("action", PyStr "store_true"); ("default", PyBool false);
              ("help", PyStr "List all pytest addoptions with their default values")] in
  add_custom_option g "--sequencer-api"
    [("action", PyStr "store"); ("default", PyStr "http://localhost:8765/");
     ("help", PyStr "API URL for sequencer")].

(** The parsed command line, as [config.getoption] gives it. *)
Record config : Type := {
  enable_sequencer_reporting : bool;
  list_options : bool;
  sequencer_api : string
}.

Definition pytest_configure (g : globals) (c : config) : hook_result :=
  let g' :=
    {| custom_options := custom_options g;
       sequencer_reporting_enabled := enable_sequencer_reporting c;
       sequencer_api_url := sequencer_api c;
       test_reports := test_reports g |} in
  {| after := g';
     trace :=
       if sequencer_reporting_enabled g' then
         [Print ("Sequencer reporting is enabled. Messages will be sent to "
                   ++ sequencer_api_url g')]
       else [Print "Sequencer reporting is disabled."];
     raised := None |}.

(** ** [json.dumps] *)

(** Strings are sequences of code points below 256.  With [ensure_ascii],
    the default, every character outside the printable ASCII range is
    escaped, as are the quote and the backslash. *)
Definition quote : string := String (ascii_of_nat 34) "".

Definition hex_digit (n : nat) : ascii :=
  ascii_of_nat (if Nat.ltb n 10 then 48 + n else 87 + n).

Definition escape_char (c : ascii) : string :=
  let n := nat_of_ascii c in
  if Nat.eqb n 34 then "\" ++ quote
  else if Nat.eqb n 92 then "\\"
  else if Nat.eqb n 10 then "\n"
  else if Nat.eqb n 13 then "\r"
  else if Nat.eqb n 9 then "\t"
  else if Nat.eqb n 8 then "\b"
  else if Nat.eqb n 12 then "\f"
  else if Nat.ltb n 32 || Nat.ltb 126 n then
    "\u00" ++ String (hex_digit (n / 16)) (String (hex_digit (n mod 16)) "")
  else String c "".

Fixpoint escape (s : string) : string :=
  match s with
  | EmptyString => ""
  | String c rest => escape_char c ++ escape rest
  end.

Definition json_string (s : string) : string := quote ++ escape s ++ quote.

(** The items of a JSON array or object, separated by [", "]. *)
Fixpoint join_items (items : list string) : string :=
  match items with
  | [] => ""
  | x :: rest =>
      match rest with
      | [] => x
      | _ :: _ => x ++ ", " ++ join_items rest
      end
  end.

Fixpoint json_dumps (v : pyval) : string :=
  match v with
  | PyNone => "null"
  | PyBool true => "true"
  | PyBool false => "false"
  | PyInt z => pretty z
  | PyStr s => json_string s
  | PyList l => "[" ++ join_items (List.map json_dumps l) ++ "]"
  end.

(** A dictionary with string keys, in insertion order. *)
Definition json_dumps_dict (d : list (string * pyval)) : string :=
  "{" ++ join_items
           (List.map (fun kv => (json_string (fst kv) ++ ": " ++ json_dumps (snd kv))%string) d)
      ++ "}".

Definition option_dict (o : custom_option) : list (string * pyval) :=
  [("name", PyStr (opt_name o)); ("default", opt_default o); ("help", opt_help o)].

(** [json.dumps] of a list of option dictionaries. *)
Definition json_dumps_options (os : list custom_option) : string :=
  "[" ++ join_items (List.map (fun o => json_dumps_dict (option_dict o)) os) ++ "]".

(** ** The hooks *)

Definition pytest_sessionstart (g : globals) (c : config) : hook_result :=
  if list_options c then
    let filtered_options :=
      List.filter (fun o => negb (String.eqb (opt_name o) "--list-options"))
                  (custom_options g) in
    let json_output := json_dumps_options filtered_options in
    {| after := g;
       trace := [Print json_output];
       raised := Some (Exit "Listed all custom options in JSON format." 0) |}
  else {| after := g; trace := []; raised := None |}.

(** The [try] block that both reporting hooks share, with its [except
    requests.RequestException] clause: the call of [requests.post], then
    [raise_for_status] on what it returned.  An exception of another class
    is not handled and leaves the block. *)
Definition deliver (g : globals) (msg : message) (sent failed : string)
    (answer : post_result) : list effect * option exn :=
  let target := sequencer_api_url g ++ API_ENDPOINT in
  let attempt :=
    match answer with
    | Returns r => raise_for_status r
    | Raises e => Some e
    end in
  match attempt with
  | None => ([Post target msg; Print sent], None)
  | Some e =>
      if is_RequestException e then
        ([Post target msg; Print failed; Print ("Exception: " ++ exn_str e);
          PrintExc e], None)
      else ([Post target msg], Some e)
  end.

(** [pytest_runtest_logstart(nodeid, location)]; the location is not read. *)
Definition pytest_runtest_logstart (g : globals) (nodeid : string)
    (answer : post_result) : hook_result :=
  if String.eqb nodeid "" || negb (sequencer_reporting_enabled g) then
    {| after := g; trace := []; raised := None |}
  else
    let msg := test_started nodeid in
    let '(tr, exc) :=
      deliver g msg ("Sent test_started message for " ++ nodeid)
              ("Failed to send test_started message for " ++ nodeid) answer in
    {| after := g; trace := tr; raised := exc |}.

(** [pytest_runtest_logreport(report)].  The [finally] clause runs on every
    way out of the [try] block. *)
Definition pytest_runtest_logreport (g : globals) (report : TestReport)
    (answer : post_result) : hook_result :=
  if negb (sequencer_reporting_enabled g) then
    {| after := g; trace := []; raised := None |}
  else
    let nodeid := rep_nodeid report in
    let tr0 :=
      match test_reports g !! nodeid with
      | Some _ => test_reports g
      | None => <[nodeid := ∅]> (test_reports g)
      end in
    let tr1 := <[nodeid := <[rep_when report := report]> (tr0 !!! nodeid)]> tr0 in
    if String.eqb (rep_when report) "teardown" then
      let reports := tr1 !!! nodeid in
      let outcome := reconcile_outcome reports in
      let msg :=
        test_finished nodeid outcome (total_duration reports)
                      (collect_user_properties reports) in
      let '(tr, exc) :=
        deliver g msg
          ("Sent test_finished message for " ++ nodeid ++ " with outcome: " ++ outcome)
          ("Failed to send test_finished message for " ++ nodeid) answer in
      {| after := set_test_reports g (delete nodeid tr1);
         trace := tr; raised := exc |}
    else
      {| after := set_test_reports g tr1; trace := []; raised := None |}.

Definition pytest_sessionfinish (g : globals) : hook_result :=
  {| after := g; trace := []; raised := None |}.

(** ** Sequences of hook calls and the session *)

(** A call of one of the hooks of the test loop, with what the HTTP client
    will answer if the hook posts. *)
Inductive hook_call : Type :=
| LogStart (nodeid : string) (answer : post_result)
| LogReport (report : TestReport) (answer : post_result)
| SessionFinish.

Definition call_hook (g : globals) (c : hook_call) : hook_result :=
  match c with
  | LogStart nodeid answer => pytest_runtest_logstart g nodeid answer
  | LogReport report answer => pytest_runtest_logreport g report answer
  | SessionFinish => pytest_sessionfinish g
  end.

(** The hooks called one after the other on the globals that the previous
    one left, whatever they raise; the traces are put together. *)
Fixpoint run_hooks (g : globals) (calls : list hook_call) : globals * list effect :=
  match calls with
  | [] => (g, [])
  | c :: rest =>
      let r := call_hook g c in
      let '(g', tr) := run_hooks (after r) rest in
      (g', (trace r ++ tr)%list)
  end.

(** The test loop as the host runs it: the hooks are called one after the
    other, and an exception that leaves a hook ends the loop; the calls that
    were to come are not made. *)
Fixpoint run_test_loop (g : globals) (calls : list hook_call)
  : globals * list effect * option exn :=
  match calls with
  | [] => (g, [], None)
  | c :: rest =>
      let r := call_hook g c in
      match raised r with
      | Some e => (after r, trace r, Some e)
      | None =>
          let '(g', tr, exc) := run_test_loop (after r) rest in
          (g', (trace r ++ tr)%list, exc)
      end
  end.

(** The exit status of a session that an exception ended: the return code
    given to [pytest.exit], and 3, the host's internal error, for an
    exception of any other class. *)
Definition abort_status (e : exn) : Z :=
  match e with
  | Exit _ returncode => returncode
  | _ => 3%Z
  end.

(** The host's session around the hooks: the options are added, the
    configuration is read, the session starts, and then the tests are
    collected and run, which is where the hooks of the test loop are called.
    An exception that leaves a hook ends the session there, with the status
    that [abort_status] gives: [pytest.exit] in [pytest_sessionstart] ends it
    before any test is collected.  [host_status] is the exit status that the
    host gives to a session in which no hook raised. *)
Definition pytest_session (c : config) (calls : list hook_call)
    (host_status : Z) : Z * list effect :=
  let g := pytest_addoption initial_globals in
  let configured := pytest_configure g c in
  let started := pytest_sessionstart (after configured) c in
  match raised started with
  | Some e => (abort_status e, (trace configured ++ trace started)%list)
  | None =>
      let '(_, tr, exc) := run_test_loop (after started) calls in
      (match exc with Some e => abort_status e | None => host_status end,
       (trace configured ++ trace started ++ tr)%list)
  end.

(** ** The buffer *)

(** The reports of a test once [report] is stored with them. *)
Definition buffered (g : globals) (report : TestReport) : phase_reports :=
  <[rep_when report := report]> (default ∅ (test_reports g !! rep_nodeid report)).

Definition finished_message (nodeid : string) (reports : phase_reports) : message :=
  test_finished nodeid (reconcile_outcome reports) (total_duration reports)
                (collect_user_properties reports).

Definition target (g : globals) : string := sequencer_api_url g ++ API_ENDPOINT.

(** What the [try] block of a hook ends with: the exception that
    [requests.post] or [raise_for_status] raised, if any. *)
Definition attempt (answer : post_result) : option exn :=
  match answer with
  | Returns r => raise_for_status r
  | Raises e => Some e
  end.

(** ** Notions of the specification *)

(** A phase failed and the failure was not an expected one. *)
Definition unexpected_failure (rep : option TestReport) : Prop :=
  exists r, rep = Some r /\ rep_outcome r = "failed" /\ marked_xfail r = false.

(** The six outcomes that the sequencer knows. *)
Definition final_outcomes : list string :=
  ["passed"; "failed"; "skipped"; "error"; "xfailed"; "xpassed"].

(** The HTTP client answered, or failed in the way [requests] reports its
    failures: whatever stops the [try] block is a
    [requests.RequestException].  Every response is of this kind, whatever its
    status, and so is every transport failure. *)
Definition request_level (answer : post_result) : Prop :=
  forall e, attempt answer = Some e -> is_RequestException e = true.

(** Globals with reporting switched on, for the examples. *)
Definition enabled_globals : globals :=
  {| custom_options := [];
     sequencer_reporting_enabled := true;
     sequencer_api_url := "http://localhost:8765/";
     test_reports := ∅ |}.

(** The options that the plugin registers, without the listing flag. *)
Definition listed_options : list custom_option :=
  [{| opt_name := "--enable-sequencer-reporting";
      opt_default := PyBool false;
      opt_help := PyStr "Enable notifications to the test sequencer GUI." |};
   {| opt_name := "--sequencer-api";
      opt_default := PyStr "http://localhost:8765/";
      opt_help := PyStr "API URL for sequencer" |}].

(** A text between double quotes. *)
Definition quoted (s : string) : string :=
  String "034"%char (s ++ String "034"%char "").

(** The JSON object that the listing has for an option: the keys [name],
    [default] and [help] in this order, each followed by a colon, a space
    and the JSON text of its value, the three separated by a comma and a
    space. *)
Definition option_text (o : custom_option) : string :=
  "{" ++ quoted "name" ++ ": " ++ json_dumps (PyStr (opt_name o)) ++ ", "
      ++ quoted "default" ++ ": " ++ json_dumps (opt_default o) ++ ", "
      ++ quoted "help" ++ ": " ++ json_dumps (opt_help o) ++ "}".

(** The line that the listing prints for the options that the plugin
    registers, character by character. *)
Definition registered_listing : string :=
  "[{" ++ quoted "name" ++ ": " ++ quoted "--enable-sequencer-reporting" ++ ", "
       ++ quoted "default" ++ ": false, "
       ++ quoted "help" ++ ": "
       ++ quoted "Enable notifications to the test sequencer GUI."
  ++ "}, {" ++ quoted "name" ++ ": " ++ quoted "--sequencer-api" ++ ", "
       ++ quoted "default" ++ ": " ++ quoted "http://localhost:8765/" ++ ", "
       ++ quoted "help" ++ ": " ++ quoted "API URL for sequencer"
  ++ "}]".

(** A report, written out. *)
Definition mk_report (nodeid when outcome : string) (duration : Qc)
    (wasxfail : option string) : TestReport :=
  {| rep_nodeid := nodeid; rep_when := when; rep_outcome := outcome;
     rep_duration := duration; rep_wasxfail := wasxfail;
     rep_user_properties := [] |}.

(** The user properties that a phase brings: none when it has no report. *)
Definition properties_of (reports : phase_reports) (phase : string)
  : list (string * property_value) :=
  match reports !! phase with
  | Some rep => rep_user_properties rep
  | None => []
  end.

(** Whether a call of a hook gets as far as the [try] block, that is,
    attempts a delivery. *)
Definition attempts_delivery (g : globals) (c : hook_call) : bool :=
  match c with
  | LogStart nodeid _ =>
      negb (String.eqb nodeid "") && sequencer_reporting_enabled g
  | LogReport report _ =>
      sequencer_reporting_enabled g && String.eqb (rep_when report) "teardown"
  | SessionFinish => false
  end.

(** A call that takes the entry of a test out of the buffer: a teardown
    report for it. *)
Definition is_teardown_of (nodeid : string) (c : hook_call) : bool :=
  match c with
  | LogReport report _ =>
      String.eqb (rep_nodeid report) nodeid && String.eqb (rep_when report) "teardown"
  | _ => false
  end.

(** One test as the host runs it: the start of the test, the reports of the
    phases before the teardown (setup, and call when the setup went well),
    and the teardown report, each call with the answer that the HTTP client
    has for it. *)
Record test_item : Type := {
  item_nodeid : string;
  item_start_answer : post_result;
  item_early : list (TestReport * post_result);
  item_teardown : TestReport;
  item_finish_answer : post_result
}.

Definition item_calls (i : test_item) : list hook_call :=
  (LogStart (item_nodeid i) (item_start_answer i)
   :: List.map (fun ra => LogReport (fst ra) (snd ra)) (item_early i)
   ++ [LogReport (item_teardown i) (item_finish_answer i)])%list.

Definition well_formed_item (i : test_item) : Prop :=
  item_nodeid i <> "" /\
  Forall (fun ra => rep_nodeid (fst ra) = item_nodeid i /\
                    rep_when (fst ra) <> "teardown") (item_early i) /\
  rep_nodeid (item_teardown i) = item_nodeid i /\
  rep_when (item_teardown i) = "teardown".

(** The dictionary that a sequence of reports of one test builds up. *)
Definition stored_reports (rs : list TestReport) : phase_reports :=
  foldl (fun m r => <[rep_when r := r]> m) ∅ rs.

(** The two messages of a test. *)
Definition item_posts (g : globals) (i : test_item) : list effect :=
  [Post (target g) (test_started (item_nodeid i));
   Post (target g)
     (finished_message (item_nodeid i)
        (stored_reports (List.map fst (item_early i) ++ [item_teardown i])))].

(** A character of the printable ASCII range, space to tilde. *)
Definition printable_char (c : ascii) : bool :=
  Nat.leb 32 (nat_of_ascii c) && Nat.leb (nat_of_ascii c) 126.

Fixpoint all_printable (s : string) : bool :=
  match s with
  | EmptyString => true
  | String c rest => printable_char c && all_printable rest
  end.

(** The options that the listing shows. *)
Definition options_to_list (g : globals) : list custom_option :=
  List.filter (fun o => negb (String.eqb (opt_name o) "--list-options"))
              (custom_options g).

(** ** Reading the three phases *)

Lemma failed_unexpectedly_true rep :
  failed_unexpectedly rep = true <-> unexpected_failure rep.
Proof.
  unfold failed_unexpectedly, unexpected_failure. split.
  - destruct rep as [r|]; [|discriminate].
    intros [Ho Hx]%andb_true_iff. exists r.
    apply String.eqb_eq in Ho. apply negb_true_iff in Hx. auto.
  - intros (r & -> & Ho & Hx). rewrite Ho, Hx. reflexivity.
Qed.

Lemma failed_unexpectedly_false rep :
  failed_unexpectedly rep = false <-> ~ unexpected_failure rep.
Proof.
  rewrite <- failed_unexpectedly_true.
  destruct (failed_unexpectedly rep); split; intros; congruence.
Qed.

(** Running past the first test of [reconcile_outcome]. *)
Lemma reconcile_no_unexpected_failure (reports : phase_reports) :
  ~ unexpected_failure (reports !! "setup") ->
  ~ unexpected_failure (reports !! "teardown") ->
  reconcile_outcome reports =
    match reports !! "call" with
    | Some call =>
        if marked_xfail call then
          if String.eqb (rep_outcome call) "passed" then "xpassed" else "xfailed"
        else rep_outcome call
    | None =>
        match reports !! "setup" with
        | Some setup =>
            if String.eqb (rep_outcome setup) "skipped" then "skipped" else "error"
        | None => "error"
        end
    end.
Proof.
  intros Hs%failed_unexpectedly_false Ht%failed_unexpectedly_false.
  unfold reconcile_outcome. rewrite Hs, Ht. cbn [orb].
  destruct (reports !! "call") as [call|]; [|reflexivity].
  destruct (marked_xfail call); [reflexivity|].
  destruct (String.eqb_spec (rep_outcome call) "passed") as [->|]; [reflexivity|].
  destruct (String.eqb_spec (rep_outcome call) "failed") as [->|]; [reflexivity|].
  destruct (String.eqb_spec (rep_outcome call) "skipped") as [->|]; reflexivity.
Qed.

(** ** The outcome *)

(** C1: when the setup report or the teardown report has the outcome
    [failed] and is not marked as an expected failure, the outcome of the
    test is [error], whatever the call report says. *)
Theorem setup_or_teardown_failure_is_error (reports : phase_reports) :
  unexpected_failure (reports !! "setup") \/
  unexpected_failure (reports !! "teardown") ->
  reconcile_outcome reports = "error".
Proof.
  intros H. unfold reconcile_outcome.
  destruct H as [H|H]; apply failed_unexpectedly_true in H; rewrite H.
  - reflexivity.
  - rewrite orb_true_r. reflexivity.
Qed.

Lemma setup_or_teardown_failure_is_error_witness :
  reconcile_outcome
    (<["setup" := mk_report "t.py::test_a" "setup" "failed" 0%Qc None]>
       (<["call" := mk_report "t.py::test_a" "call" "passed" 0%Qc None]>
          (<["teardown" := mk_report "t.py::test_a" "teardown" "passed" 0%Qc None]> ∅)))
  = "error".
Proof.
  apply setup_or_teardown_failure_is_error. left.
  eexists. split; [reflexivity|]. split; reflexivity.
Defined.

(** With no unexpected failure in setup and teardown, the call report
    decides: when its [wasxfail] is true, a non-empty reason, the outcome is
    [xpassed] for the outcome [passed] and [xfailed] for any other, and when
    it is false, the outcome is the call report's own. *)
Lemma call_report_outcome (reports : phase_reports) (call : TestReport) :
  ~ unexpected_failure (reports !! "setup") ->
  ~ unexpected_failure (reports !! "teardown") ->
  reports !! "call" = Some call ->
  reconcile_outcome reports =
    if marked_xfail call then
      if String.eqb (rep_outcome call) "passed" then "xpassed" else "xfailed"
    else rep_outcome call.
Proof.
  intros Hs Ht Hc.
  rewrite (reconcile_no_unexpected_failure reports Hs Ht), Hc.
  destruct (marked_xfail call); [reflexivity|].
  destruct (String.eqb_spec (rep_outcome call) "passed") as [->|_]; [reflexivity|].
  destruct (String.eqb_spec (rep_outcome call) "failed") as [->|_]; [reflexivity|].
  destruct (String.eqb_spec (rep_outcome call) "skipped") as [->|_]; reflexivity.
Qed.

(** C2: a call report that pytest marked as an expected failure without a
    reason carries [wasxfail = ''], which the plugin's test of the mark,
    the truth value of [getattr(report, 'wasxfail', False)], reads as no
    mark.  With setup and teardown passed, such a test that failed, whose
    call report has the outcome [skipped], is reported as [skipped] and not
    as [xfailed], and such a test that passed is reported as [passed] and
    not as [xpassed]. *)
Theorem xfail_mark_without_reason_is_missed :
  let setup := mk_report "t.py::test_a" "setup" "passed" 0%Qc None in
  let teardown := mk_report "t.py::test_a" "teardown" "passed" 0%Qc None in
  let failed_call := mk_report "t.py::test_a" "call" "skipped" 0%Qc (Some "") in
  let passed_call := mk_report "t.py::test_a" "call" "passed" 0%Qc (Some "") in
  let reports (call : TestReport) : phase_reports :=
    <["teardown" := teardown]> (<["call" := call]> (<["setup" := setup]> ∅)) in
  rep_wasxfail failed_call = Some "" /\
  rep_wasxfail passed_call = Some "" /\
  reconcile_outcome (reports failed_call) = "skipped" /\
  reconcile_outcome (reports passed_call) = "passed".
Proof.
  cbv zeta. repeat split; vm_compute; reflexivity.
Qed.

(** C3: when neither the setup report nor the teardown report failed
    unexpectedly and there is no call report, the outcome is [skipped] when
    there is a setup report with the outcome [skipped], and [error] in every
    other case: a setup report with another outcome, or none. *)
Theorem no_call_report (reports : phase_reports) :
  ~ unexpected_failure (reports !! "setup") ->
  ~ unexpected_failure (reports !! "teardown") ->
  reports !! "call" = None ->
  ((exists setup, reports !! "setup" = Some setup /\ rep_outcome setup = "skipped") ->
   reconcile_outcome reports = "skipped") /\
  (~ (exists setup, reports !! "setup" = Some setup /\ rep_outcome setup = "skipped") ->
   reconcile_outcome reports = "error").
Proof.
  intros Hs Ht Hc.
  rewrite (reconcile_no_unexpected_failure reports Hs Ht), Hc.
  split.
  - intros (setup & -> & ->). reflexivity.
  - intros Hno. destruct (reports !! "setup") as [setup|]; [|reflexivity].
    destruct (String.eqb_spec (rep_outcome setup) "skipped") as [Heq|]; [|reflexivity].
    exfalso. apply Hno. eauto.
Qed.

Lemma no_call_report_witness :
  let reports : phase_reports :=
    <["setup" := mk_report "t.py::test_a" "setup" "skipped" 0%Qc None]>
      (<["teardown" := mk_report "t.py::test_a" "teardown" "passed" 0%Qc None]> ∅) in
  reconcile_outcome reports = "skipped".
Proof.
  intros reports.
  refine (proj1 (no_call_report reports _ _ _) _).
  - intros (r & Hr & Ho & _). vm_compute in Hr. inversion Hr; subst r. discriminate Ho.
  - intros (r & Hr & Ho & _). vm_compute in Hr. inversion Hr; subst r. discriminate Ho.
  - reflexivity.
  - eexists. split; reflexivity.
Defined.

(** C4: the reconciliation is a total function of the reports: for every
    choice of present and absent phases, of outcomes and of marks, it gives
    one of the six outcomes, or else the outcome of the call report handed
    through, which then is none of [passed], [failed] and [skipped]. *)
Theorem reconcile_outcome_range (reports : phase_reports) :
  In (reconcile_outcome reports) final_outcomes \/
  (exists call, reports !! "call" = Some call /\
                marked_xfail call = false /\
                reconcile_outcome reports = rep_outcome call /\
                ~ In (rep_outcome call) ["passed"; "failed"; "skipped"]).
Proof.
  unfold reconcile_outcome, final_outcomes.
  destruct (failed_unexpectedly (reports !! "setup") ||
            failed_unexpectedly (reports !! "teardown")).
  { left. cbn. tauto. }
  destruct (reports !! "call") as [call|].
  - destruct (marked_xfail call) eqn:Hx.
    + destruct (String.eqb (rep_outcome call) "passed"); left; cbn; tauto.
    + destruct (String.eqb_spec (rep_outcome call) "passed"); [left; cbn; tauto|].
      destruct (String.eqb_spec (rep_outcome call) "failed"); [left; cbn; tauto|].
      destruct (String.eqb_spec (rep_outcome call) "skipped"); [left; cbn; tauto|].
      right. exists call. split; [reflexivity|]. split; [exact Hx|].
      split; [reflexivity|].
      intros H. cbn in H. destruct H as [H|[H|[H|[]]]]; congruence.
  - destruct (reports !! "setup") as [setup|]; [|left; cbn; tauto].
    destruct (String.eqb (rep_outcome setup) "skipped"); left; cbn; tauto.
Qed.

(** ** Delivery and the buffer *)

Lemma deliver_posts g msg sent failed answer :
  posts (fst (deliver g msg sent failed answer)) = [Post (target g) msg].
Proof.
  unfold deliver. destruct answer as [r|e]; [destruct (raise_for_status r) as [e|]|];
    try destruct (is_RequestException e); reflexivity.
Qed.

Lemma deliver_raised g msg sent failed answer :
  snd (deliver g msg sent failed answer) =
    match attempt answer with
    | Some e => if is_RequestException e then None else Some e
    | None => None
    end.
Proof.
  unfold deliver, attempt.
  destruct answer as [r|e]; [destruct (raise_for_status r) as [e|]|];
    try destruct (is_RequestException e); reflexivity.
Qed.

Lemma deliver_caught g msg sent failed answer e :
  attempt answer = Some e -> is_RequestException e = true ->
  deliver g msg sent failed answer =
    ([Post (target g) msg; Print failed; Print ("Exception: " ++ exn_str e);
      PrintExc e], None).
Proof.
  unfold deliver, attempt. intros H He.
  destruct answer as [r|e'].
  - rewrite H, He. reflexivity.
  - injection H as ->. rewrite He. reflexivity.
Qed.

(** The hook for a phase report when reporting is enabled, with the
    bookkeeping of the dictionaries carried out. *)
Lemma logreport_enabled g report answer :
  sequencer_reporting_enabled g = true ->
  pytest_runtest_logreport g report answer =
    let nodeid := rep_nodeid report in
    let reports := buffered g report in
    if String.eqb (rep_when report) "teardown" then
      let d := deliver g (finished_message nodeid reports)
                 ("Sent test_finished message for " ++ nodeid ++ " with outcome: "
                    ++ reconcile_outcome reports)
                 ("Failed to send test_finished message for " ++ nodeid) answer in
      {| after := set_test_reports g (delete nodeid (test_reports g));
         trace := fst d; raised := snd d |}
    else
      {| after := set_test_reports g (<[nodeid := reports]> (test_reports g));
         trace := []; raised := None |}.
Proof.
  intros Hen. unfold pytest_runtest_logreport, buffered, finished_message.
  rewrite Hen. cbn [negb]. cbv zeta.
  set (nodeid := rep_nodeid report).
  assert (Hbuf :
    (match test_reports g !! nodeid with
     | Some _ => test_reports g
     | None => <[nodeid := ∅]> (test_reports g)
     end) !!! nodeid = default ∅ (test_reports g !! nodeid)).
  { destruct (test_reports g !! nodeid) as [m|] eqn:Hm.
    - rewrite lookup_total_alt, Hm. reflexivity.
    - rewrite lookup_total_insert_eq. reflexivity. }
  assert (Hins : forall m,
    <[nodeid := m]>
      (match test_reports g !! nodeid with
       | Some _ => test_reports g
       | None => <[nodeid := ∅]> (test_reports g)
       end) = <[nodeid := m]> (test_reports g)).
  { intros m. destruct (test_reports g !! nodeid); [reflexivity|].
    apply insert_insert_eq. }
  rewrite Hbuf, Hins, lookup_total_insert_eq, delete_insert_eq.
  destruct (String.eqb (rep_when report) "teardown"); [|reflexivity].
  destruct (deliver _ _ _ _ _) as [tr exc]. reflexivity.
Qed.

Lemma logreport_disabled g report answer :
  sequencer_reporting_enabled g = false ->
  pytest_runtest_logreport g report answer = {| after := g; trace := []; raised := None |}.
Proof. intros H. unfold pytest_runtest_logreport. rewrite H. reflexivity. Qed.

Lemma logstart_disabled g nodeid answer :
  sequencer_reporting_enabled g = false ->
  pytest_runtest_logstart g nodeid answer = {| after := g; trace := []; raised := None |}.
Proof.
  intros H. unfold pytest_runtest_logstart. rewrite H, orb_true_r. reflexivity.
Qed.

(** The hook for a teardown report, reporting enabled. *)
Lemma logreport_teardown g report answer :
  sequencer_reporting_enabled g = true ->
  rep_when report = "teardown" ->
  let nodeid := rep_nodeid report in
  let reports := buffered g report in
  let d := deliver g (finished_message nodeid reports)
             ("Sent test_finished message for " ++ nodeid ++ " with outcome: "
                ++ reconcile_outcome reports)
             ("Failed to send test_finished message for " ++ nodeid) answer in
  pytest_runtest_logreport g report answer =
    {| after := set_test_reports g (delete nodeid (test_reports g));
       trace := fst d; raised := snd d |}.
Proof.
  intros Hen Hw. rewrite (logreport_enabled g report answer Hen). cbv zeta.
  rewrite Hw. reflexivity.
Qed.

Lemma request_level_returns r : request_level (Returns r).
Proof.
  intros e. cbn. unfold raise_for_status.
  repeat match goal with |- context [if ?b then _ else _] => destruct b end;
    intros [= <-]; reflexivity.
Qed.

Lemma request_level_transport cause : request_level (Raises (TransportError cause)).
Proof. intros e [= <-]. reflexivity. Qed.

Lemma deliver_request_level g msg sent failed answer :
  request_level answer -> snd (deliver g msg sent failed answer) = None.
Proof.
  intros H. rewrite deliver_raised. destruct (attempt answer) as [e|] eqn:He; [|reflexivity].
  rewrite (H e He). reflexivity.
Qed.

Lemma call_hook_disabled g c :
  sequencer_reporting_enabled g = false ->
  call_hook g c = {| after := g; trace := []; raised := None |}.
Proof.
  intros Hdis. destruct c as [nodeid answer|report answer|]; cbn [call_hook].
  - apply logstart_disabled, Hdis.
  - apply logreport_disabled, Hdis.
  - reflexivity.
Qed.

Lemma run_hooks_disabled g calls :
  sequencer_reporting_enabled g = false -> run_hooks g calls = (g, []).
Proof.
  intros Hdis. induction calls as [|c rest IH]; [reflexivity|].
  cbn [run_hooks]. rewrite (call_hook_disabled g c Hdis). cbn [after trace].
  rewrite IH. reflexivity.
Qed.

(** No hook of the test loop touches the configuration. *)
Lemma run_test_loop_disabled g calls :
  sequencer_reporting_enabled g = false ->
  run_test_loop g calls = (g, [], None).
Proof.
  intros Hdis. induction calls as [|c rest IH]; [reflexivity|].
  cbn [run_test_loop]. rewrite (call_hook_disabled g c Hdis).
  cbn [raised after trace]. rewrite IH. reflexivity.
Qed.

(** When no hook raises, the test loop makes every call. *)
Lemma run_test_loop_returns calls :
  Forall (fun c => forall g, raised (call_hook g c) = None) calls ->
  forall g,
    run_test_loop g calls = (fst (run_hooks g calls), snd (run_hooks g calls), None).
Proof.
  induction 1 as [|c rest Hc _ IH]; intros g; [reflexivity|].
  cbn [run_test_loop run_hooks]. rewrite Hc, IH.
  destruct (run_hooks (after (call_hook g c)) rest) as [g' tr]. reflexivity.
Qed.

Lemma call_hook_enabled g c :
  sequencer_reporting_enabled (after (call_hook g c)) = sequencer_reporting_enabled g.
Proof.
  destruct c as [nodeid answer|report answer|]; cbn [call_hook].
  - unfold pytest_runtest_logstart. destruct (_ || _); [reflexivity|].
    destruct (deliver _ _ _ _ _); reflexivity.
  - unfold pytest_runtest_logreport. destruct (negb _); [reflexivity|]. cbv zeta.
    destruct (String.eqb _ _); [|reflexivity].
    destruct (deliver _ _ _ _ _); reflexivity.
  - reflexivity.
Qed.

Lemma run_hooks_enabled g calls :
  sequencer_reporting_enabled (fst (run_hooks g calls)) = sequencer_reporting_enabled g.
Proof.
  revert g. induction calls as [|c rest IH]; intros g; [reflexivity|].
  cbn [run_hooks]. specialize (IH (after (call_hook g c))).
  destruct (run_hooks (after (call_hook g c)) rest) as [g' tr]. cbn [fst] in *.
  rewrite IH. apply call_hook_enabled.
Qed.

(** In a run of the plugin from its import on, whatever the configuration
    and whatever hooks were called before, no entry is left for a test once
    its teardown report went through the hook. *)
Lemma no_entry_after_teardown_in_a_run c calls report answer :
  rep_when report = "teardown" ->
  let configured := after (pytest_configure (pytest_addoption initial_globals) c) in
  let g := fst (run_hooks configured calls) in
  test_reports (after (pytest_runtest_logreport g report answer))
    !! rep_nodeid report = None.
Proof.
  intros Hw configured g.
  destruct (sequencer_reporting_enabled configured) eqn:Hen.
  - assert (Hg : sequencer_reporting_enabled g = true).
    { unfold g. rewrite run_hooks_enabled. exact Hen. }
    rewrite (logreport_teardown g report answer Hg Hw). cbn [after test_reports set_test_reports].
    apply lookup_delete_eq.
  - assert (Hg : g = configured).
    { unfold g. rewrite (run_hooks_disabled configured calls Hen). reflexivity. }
    rewrite Hg, (logreport_disabled configured report answer Hen). reflexivity.
Qed.

(** ** What the hooks guarantee *)

(** C5: once a teardown report for a test is processed, the entry of the
    test is gone from the buffer, whatever the delivery did, also when it
    failed or raised; the entries of the other tests are as before; a second
    teardown report for the test is reconciled from that report alone; and a
    later report of another test is handled the same whatever the entry
    held. *)
Theorem teardown_evicts (g : globals) (report : TestReport) (answer : post_result) :
  sequencer_reporting_enabled g = true ->
  rep_when report = "teardown" ->
  let T := rep_nodeid report in
  let g' := after (pytest_runtest_logreport g report answer) in
  test_reports g' !! T = None /\
  (forall k, k <> T -> test_reports g' !! k = test_reports g !! k) /\
  (forall again answer2,
     rep_nodeid again = T -> rep_when again = "teardown" ->
     posts (trace (pytest_runtest_logreport g' again answer2)) =
       [Post (target g) (finished_message T (<["teardown" := again]> ∅))]) /\
  (forall stale later answer1 answer2,
     rep_nodeid later <> T ->
     let gs := set_test_reports g (<[T := stale]> (test_reports g)) in
     let gs' := after (pytest_runtest_logreport gs report answer1) in
     pytest_runtest_logreport gs' later answer2 =
       pytest_runtest_logreport g' later answer2).
Proof.
  intros Hen Hw T g'.
  assert (Hg' : g' = set_test_reports g (delete T (test_reports g))).
  { unfold g'. rewrite (logreport_teardown g report answer Hen Hw). reflexivity. }
  rewrite Hg'. cbn [test_reports set_test_reports].
  split; [apply lookup_delete_eq|].
  split; [intros k Hk; apply lookup_delete_ne; congruence|].
  split.
  - intros again answer2 Hid Hw2.
    rewrite logreport_teardown by (cbn; assumption). cbn [trace].
    rewrite deliver_posts. unfold buffered, target. cbn [test_reports set_test_reports].
    rewrite Hid, Hw2, lookup_delete_eq. reflexivity.
  - intros stale later answer1 answer2 Hne.
    rewrite (logreport_teardown (set_test_reports g (<[T:=stale]> (test_reports g)))
               report answer1) by (cbn; assumption).
    cbn [after test_reports set_test_reports].
    fold T. rewrite delete_insert_eq. reflexivity.
Qed.

Lemma teardown_evicts_witness :
  let report := mk_report "t.py::test_a" "teardown" "passed" 0%Qc None in
  let g := set_test_reports enabled_globals
             (<["t.py::test_a" :=
                  <["setup" := mk_report "t.py::test_a" "setup" "passed" 0%Qc None]> ∅]> ∅) in
  test_reports
    (after (pytest_runtest_logreport g report (Raises (TransportError "refused"))))
    !! "t.py::test_a" = None.
Proof.
  intros report g.
  exact (proj1 (teardown_evicts g report (Raises (TransportError "refused"))
                  eq_refl eq_refl)).
Defined.

Lemma deliver_sent g msg sent failed answer :
  attempt answer = None ->
  deliver g msg sent failed answer = ([Post (target g) msg; Print sent], None).
Proof.
  unfold deliver, attempt. intros H.
  destruct answer as [r|e']; [rewrite H; reflexivity|discriminate H].
Qed.

Lemma deliver_escaped g msg sent failed answer e :
  attempt answer = Some e -> is_RequestException e = false ->
  deliver g msg sent failed answer = ([Post (target g) msg], Some e).
Proof.
  unfold deliver, attempt. intros H He.
  destruct answer as [r|e'].
  - rewrite H, He. reflexivity.
  - injection H as ->. rewrite He. reflexivity.
Qed.

(** [raise_for_status] raises for the statuses from 400 to 599 and for no
    other. *)
Lemma raise_for_status_error r :
  (400 <= status_code r < 600)%Z ->
  exists text, raise_for_status r = Some (HTTPError text).
Proof.
  intros H. unfold raise_for_status.
  destruct ((400 <=? status_code r) && (status_code r <? 500))%Z eqn:H4;
    [eexists; reflexivity|].
  destruct ((500 <=? status_code r) && (status_code r <? 600))%Z eqn:H5;
    [eexists; reflexivity|].
  exfalso.
  apply andb_false_iff in H4, H5.
  rewrite Z.leb_gt, Z.ltb_ge in H4, H5. lia.
Qed.

Lemma raise_for_status_none r :
  ~ (400 <= status_code r < 600)%Z -> raise_for_status r = None.
Proof.
  intros H. unfold raise_for_status.
  destruct ((400 <=? status_code r) && (status_code r <? 500))%Z eqn:H4.
  { exfalso. apply andb_true_iff in H4. rewrite Z.leb_le, Z.ltb_lt in H4. lia. }
  destruct ((500 <=? status_code r) && (status_code r <? 600))%Z eqn:H5.
  { exfalso. apply andb_true_iff in H5. rewrite Z.leb_le, Z.ltb_lt in H5. lia. }
  reflexivity.
Qed.

(** The hook for the start of a test when it attempts a delivery. *)
Lemma logstart_attempt g nodeid answer :
  sequencer_reporting_enabled g = true -> nodeid <> "" ->
  let d := deliver g (test_started nodeid)
             ("Sent test_started message for " ++ nodeid)
             ("Failed to send test_started message for " ++ nodeid) answer in
  pytest_runtest_logstart g nodeid answer =
    {| after := g; trace := fst d; raised := snd d |}.
Proof.
  intros Hen Hid. unfold pytest_runtest_logstart.
  apply String.eqb_neq in Hid. rewrite Hid, Hen. cbn [negb orb]. cbv zeta.
  destruct (deliver _ _ _ _ _). reflexivity.
Qed.

(** C6, as the hooks have it.  Take a call of either reporting hook that
    attempts a delivery: reporting is enabled, the test that starts has a
    nodeid, the report is a teardown report.  A response with a status from
    400 to 599 makes [raise_for_status] raise an [HTTPError], and a transport
    failure is a [RequestException] like it; when the attempt ends in such an
    exception, the hook prints that the message could not be sent, then the
    exception and its traceback, and returns, the report hook with the entry
    of the test evicted.  A response with any other status counts as
    delivered and is logged as sent.  An exception of another class is not
    caught: it leaves the hook after the attempt, the report hook with the
    entry evicted all the same. *)
Theorem request_failures_are_contained (g : globals) (nodeid : string)
    (report : TestReport) (answer : post_result) :
  sequencer_reporting_enabled g = true ->
  nodeid <> "" ->
  rep_when report = "teardown" ->
  let started := pytest_runtest_logstart g nodeid answer in
  let finished := pytest_runtest_logreport g report answer in
  let finished_msg := finished_message (rep_nodeid report) (buffered g report) in
  let evicted := set_test_reports g (delete (rep_nodeid report) (test_reports g)) in
  (forall r, (400 <= status_code r < 600)%Z ->
     exists text, attempt (Returns r) = Some (HTTPError text)) /\
  (forall cause,
     attempt (Raises (TransportError cause)) = Some (TransportError cause)) /\
  (forall e, attempt answer = Some e -> is_RequestException e = true ->
     started =
       {| after := g;
          trace := [Post (target g) (test_started nodeid);
                    Print ("Failed to send test_started message for " ++ nodeid);
                    Print ("Exception: " ++ exn_str e); PrintExc e];
          raised := None |} /\
     finished =
       {| after := evicted;
          trace := [Post (target g) finished_msg;
                    Print ("Failed to send test_finished message for "
                             ++ rep_nodeid report);
                    Print ("Exception: " ++ exn_str e); PrintExc e];
          raised := None |}) /\
  (forall r, answer = Returns r -> ~ (400 <= status_code r < 600)%Z ->
     started =
       {| after := g;
          trace := [Post (target g) (test_started nodeid);
                    Print ("Sent test_started message for " ++ nodeid)];
          raised := None |} /\
     finished =
       {| after := evicted;
          trace := [Post (target g) finished_msg;
                    Print ("Sent test_finished message for " ++ rep_nodeid report
                             ++ " with outcome: "
                             ++ reconcile_outcome (buffered g report))];
          raised := None |}) /\
  (forall e, attempt answer = Some e -> is_RequestException e = false ->
     started =
       {| after := g; trace := [Post (target g) (test_started nodeid)];
          raised := Some e |} /\
     finished =
       {| after := evicted; trace := [Post (target g) finished_msg];
          raised := Some e |}).
Proof.
  intros Hen Hid Hw started finished finished_msg evicted.
  unfold started, finished, finished_msg, evicted.
  rewrite (logstart_attempt g nodeid answer Hen Hid).
  rewrite (logreport_teardown g report answer Hen Hw). cbv zeta.
  split; [|split; [|split; [|split]]].
  - intros r Hr. exact (raise_for_status_error r Hr).
  - intros cause. reflexivity.
  - intros e He Hreq.
    rewrite !(deliver_caught g _ _ _ answer e He Hreq). split; reflexivity.
  - intros r -> Hr.
    rewrite !(deliver_sent g _ _ _ (Returns r) (raise_for_status_none r Hr)).
    split; reflexivity.
  - intros e He Hreq.
    rewrite !(deliver_escaped g _ _ _ answer e He Hreq). split; reflexivity.
Qed.

Lemma request_failures_are_contained_witness :
  let answer :=
    Returns {| status_code := 503; reason := "Service Unavailable";
               url := "http://localhost:8765//message" |} in
  let cause :=
    HTTPError "503 Server Error: Service Unavailable for url: http://localhost:8765//message" in
  let report := mk_report "t.py::test_a" "teardown" "passed" 0%Qc None in
  pytest_runtest_logstart enabled_globals "t.py::test_a" answer =
    {| after := enabled_globals;
       trace := [Post "http://localhost:8765//message" (test_started "t.py::test_a");
                 Print "Failed to send test_started message for t.py::test_a";
                 Print "Exception: 503 Server Error: Service Unavailable for url: http://localhost:8765//message";
                 PrintExc cause];
       raised := None |} /\
  trace (pytest_runtest_logreport enabled_globals report answer) =
    [Post "http://localhost:8765//message"
       (test_finished "t.py::test_a" "error" 0%Qc []);
     Print "Failed to send test_finished message for t.py::test_a";
     Print "Exception: 503 Server Error: Service Unavailable for url: http://localhost:8765//message";
     PrintExc cause] /\
  raised (pytest_runtest_logreport enabled_globals report answer) = None.
Proof.
  intros answer cause report.
  assert (Hid : "t.py::test_a" <> "") by discriminate.
  pose proof (request_failures_are_contained enabled_globals "t.py::test_a" report
                answer eq_refl Hid eq_refl) as H.
  cbv zeta in H. destruct H as (_ & _ & H & _).
  destruct (H cause eq_refl eq_refl) as [Hs Hf].
  split; [exact Hs|]. rewrite Hf. split; reflexivity.
Defined.

(** C6 as it is stated fails on two counts.  A response whose status is not
    a success and not an error either, 304 here, is taken for a delivery:
    nothing is caught and the hook logs that the message was sent.  And the
    [except] clause names one class of exceptions: the [TypeError] that the
    HTTP client raises when it encodes the finished message of a test that
    recorded a set as a user property, which [json] cannot encode, leaves
    the hook. *)
Lemma delivery_failures_are_not_all_contained :
  let not_modified :=
    Returns {| status_code := 304; reason := "Not Modified";
               url := "http://localhost:8765//message" |} in
  let type_error := OtherError "Object of type set is not JSON serializable" in
  let phase when properties :=
    {| rep_nodeid := "t.py::test_a"; rep_when := when;
       rep_outcome := "passed"; rep_duration := 0%Qc; rep_wasxfail := None;
       rep_user_properties := properties |} in
  let tags := [("tags", OtherObject "{1, 2}")] in
  let g := set_test_reports enabled_globals
             (<["t.py::test_a" := <["call" := phase "call" tags]>
                                    (<["setup" := phase "setup" []]> ∅)]> ∅) in
  let report := phase "teardown" tags in
  trace (pytest_runtest_logstart enabled_globals "t.py::test_a" not_modified) =
    [Post "http://localhost:8765//message" (test_started "t.py::test_a");
     Print "Sent test_started message for t.py::test_a"] /\
  trace (pytest_runtest_logreport g report (Raises type_error)) =
    [Post "http://localhost:8765//message"
       (test_finished "t.py::test_a" "passed" 0%Qc
          [("tags", OtherObject "{1, 2}"); ("tags", OtherObject "{1, 2}")])] /\
  raised (pytest_runtest_logreport g report (Raises type_error)) =
    Some type_error.
Proof. cbv zeta. repeat split; vm_compute; reflexivity. Qed.

(** C7: with reporting disabled, any sequence of calls of the hooks leaves
    the globals, the buffer among them, as they were and does nothing to the
    outside: no delivery is attempted. *)
Theorem disabled_hooks_do_nothing (g : globals) (calls : list hook_call) :
  sequencer_reporting_enabled g = false ->
  run_hooks g calls = (g, []) /\
  posts (snd (run_hooks g calls)) = [] /\
  test_reports (fst (run_hooks g calls)) = test_reports g.
Proof.
  intros Hdis.
  rewrite (run_hooks_disabled g calls Hdis). repeat split.
Qed.

Lemma disabled_hooks_do_nothing_witness :
  let report := mk_report "t.py::test_a" "teardown" "passed" 0%Qc None in
  let answer := Returns {| status_code := 200; reason := "OK"; url := "" |} in
  run_hooks initial_globals
    [LogStart "t.py::test_a" answer; LogReport report answer; SessionFinish]
  = (initial_globals, []).
Proof.
  intros report answer.
  exact (proj1 (disabled_hooks_do_nothing initial_globals _ eq_refl)).
Defined.

(** C10: the hook for the start of a test does nothing for an empty test
    identifier, reporting enabled or not, and it posts, once, exactly when the
    test identifier is not empty and reporting is enabled. *)
Theorem logstart_needs_a_nodeid (g : globals) (nodeid : string)
    (answer : post_result) :
  pytest_runtest_logstart g "" answer =
    {| after := g; trace := []; raised := None |} /\
  posts (trace (pytest_runtest_logstart g nodeid answer)) =
    (if negb (String.eqb nodeid "") && sequencer_reporting_enabled g
     then [Post (target g) (test_started nodeid)] else []) /\
  (posts (trace (pytest_runtest_logstart g nodeid answer)) <> [] <->
   nodeid <> "" /\ sequencer_reporting_enabled g = true).
Proof.
  assert (Hposts :
    posts (trace (pytest_runtest_logstart g nodeid answer)) =
      (if negb (String.eqb nodeid "") && sequencer_reporting_enabled g
       then [Post (target g) (test_started nodeid)] else [])).
  { unfold pytest_runtest_logstart.
    destruct (String.eqb nodeid ""); [reflexivity|].
    destruct (sequencer_reporting_enabled g); [|reflexivity].
    cbn [orb negb andb].
    pose proof (deliver_posts g (test_started nodeid)
                  ("Sent test_started message for " ++ nodeid)
                  ("Failed to send test_started message for " ++ nodeid) answer) as H.
    destruct (deliver _ _ _ _ _) as [tr exc]. exact H. }
  split; [reflexivity|]. split; [exact Hposts|].
  rewrite Hposts.
  destruct (String.eqb_spec nodeid "") as [->|Hne];
    destruct (sequencer_reporting_enabled g); cbn [negb andb];
    split; try congruence; try (intros [? ?]; congruence); intros _; auto.
Qed.

(** ** Listing the options *)

Lemma registered_options_listed :
  List.filter (fun o => negb (String.eqb (opt_name o) "--list-options"))
              (custom_options (pytest_addoption initial_globals)) = listed_options.
Proof. reflexivity. Qed.

Lemma json_dumps_options_no_option : json_dumps_options [] = "[]".
Proof. reflexivity. Qed.

Lemma join_items_concat items : join_items items = String.concat ", " items.
Proof.
  induction items as [|x rest IH]; [reflexivity|].
  cbn [join_items String.concat]. destruct rest; [reflexivity|].
  rewrite IH. reflexivity.
Qed.

Lemma string_append_assoc (s1 s2 s3 : string) : (s1 ++ s2) ++ s3 = s1 ++ s2 ++ s3.
Proof.
  induction s1 as [|c s1 IH]; [reflexivity|].
  change (String c ((s1 ++ s2) ++ s3) = String c (s1 ++ s2 ++ s3)).
  rewrite IH. reflexivity.
Qed.

Lemma json_dumps_option o : json_dumps_dict (option_dict o) = option_text o.
Proof.
  unfold json_dumps_dict, option_dict, option_text.
  cbn [List.map join_items fst snd].
  change (json_string "name") with (quoted "name").
  change (json_string "default") with (quoted "default").
  change (json_string "help") with (quoted "help").
  rewrite !string_append_assoc. reflexivity.
Qed.

Lemma json_dumps_options_text os :
  json_dumps_options os =
    "[" ++ String.concat ", " (List.map option_text os) ++ "]".
Proof.
  unfold json_dumps_options. rewrite join_items_concat.
  do 3 f_equal. apply List.map_ext. intros o. apply json_dumps_option.
Qed.

Lemma registered_listing_text : json_dumps_options listed_options = registered_listing.
Proof. vm_compute. reflexivity. Qed.

(** C9: with the listing flag set, the hook for the start of the session
    prints one line and then leaves through [pytest.exit] with the return
    code 0.  The line is a JSON array, [[] and []] around the objects of the
    options separated by a comma and a space, with one object of the keys
    [name], [default] and [help] for every registered option but the listing
    flag itself, in the order of registration.  For the options that the
    plugin registers the line is [registered_listing]; the session prints it
    after the line of the configuration and ends with the exit status 0
    before any hook of the test loop is called: nothing is posted, whatever
    tests there are. *)
Theorem list_options_prints_and_exits (g : globals) (c : config)
    (calls : list hook_call) (host_status : Z) :
  list_options c = true ->
  let filtered_options :=
    List.filter (fun o => negb (String.eqb (opt_name o) "--list-options"))
                (custom_options g) in
  pytest_sessionstart g c =
    {| after := g;
       trace := [Print ("[" ++ String.concat ", " (List.map option_text filtered_options)
                            ++ "]")];
       raised := Some (Exit "Listed all custom options in JSON format." 0) |} /\
  (forall o, In o filtered_options <->
             In o (custom_options g) /\ opt_name o <> "--list-options") /\
  pytest_session c calls host_status =
    (0%Z, (trace (pytest_configure (pytest_addoption initial_globals) c)
           ++ [Print registered_listing])%list) /\
  posts (snd (pytest_session c calls host_status)) = [].
Proof.
  intros Hlist filtered_options.
  assert (Hsession :
    pytest_session c calls host_status =
      (0%Z, (trace (pytest_configure (pytest_addoption initial_globals) c)
             ++ [Print registered_listing])%list)).
  { unfold pytest_session, pytest_sessionstart. rewrite Hlist.
    cbn [raised trace abort_status].
    rewrite <- registered_listing_text, <- registered_options_listed.
    reflexivity. }
  split; [|split; [|split]].
  - unfold pytest_sessionstart. rewrite Hlist.
    fold filtered_options. rewrite json_dumps_options_text. reflexivity.
  - intros o. unfold filtered_options. rewrite filter_In.
    destruct (String.eqb_spec (opt_name o) "--list-options") as [Heq|Hne]; cbn [negb].
    + split; [intros [_ H]; discriminate|intros [_ H]; contradiction].
    + tauto.
  - exact Hsession.
  - rewrite Hsession. cbn [snd]. unfold pytest_configure. cbn [trace].
    destruct (sequencer_reporting_enabled _); reflexivity.
Qed.

Lemma list_options_prints_and_exits_witness :
  let c := {| enable_sequencer_reporting := true; list_options := true;
              sequencer_api := "http://localhost:8765/" |} in
  let report := mk_report "t.py::test_a" "teardown" "passed" 0%Qc None in
  let answer := Returns {| status_code := 200; reason := "OK"; url := "" |} in
  pytest_sessionstart (pytest_addoption initial_globals) c =
    {| after := pytest_addoption initial_globals;
       trace := [Print registered_listing];
       raised := Some (Exit "Listed all custom options in JSON format." 0) |} /\
  pytest_session c [LogStart "t.py::test_a" answer; LogReport report answer] 1 =
    (0%Z,
     [Print "Sequencer reporting is enabled. Messages will be sent to http://localhost:8765/";
      Print registered_listing]).
Proof.
  intros c report answer.
  destruct (list_options_prints_and_exits (pytest_addoption initial_globals) c
              [LogStart "t.py::test_a" answer; LogReport report answer] 1 eq_refl)
    as (Hstart & _ & Hsession & _).
  split; [|exact Hsession].
  rewrite Hstart. vm_compute. reflexivity.
Defined.

(** ** Storing the reports of the earlier phases *)

(** The hook for a report of another phase than teardown, reporting
    enabled. *)
Lemma logreport_store g report answer :
  sequencer_reporting_enabled g = true ->
  rep_when report <> "teardown" ->
  pytest_runtest_logreport g report answer =
    {| after := set_test_reports g
                  (<[rep_nodeid report := buffered g report]> (test_reports g));
       trace := []; raised := None |}.
Proof.
  intros Hen Hw. rewrite (logreport_enabled g report answer Hen). cbv zeta.
  destruct (String.eqb_spec (rep_when report) "teardown"); [contradiction|reflexivity].
Qed.

(** The reports that the hook works on depend on the entry of the test
    alone. *)
Lemma buffered_entry g1 g2 report :
  test_reports g1 !! rep_nodeid report = test_reports g2 !! rep_nodeid report ->
  buffered g1 report = buffered g2 report.
Proof. intros H. unfold buffered. rewrite H. reflexivity. Qed.

(** X1: a report of the setup or the call phase is put into the buffer and
    nothing else happens: nothing is posted or printed, the report can be
    read back under its test and phase, the other phases of the test and the
    entries of the other tests are as before. *)
Theorem phase_report_is_stored (g : globals) (report : TestReport)
    (answer : post_result) :
  sequencer_reporting_enabled g = true ->
  rep_when report <> "teardown" ->
  let r := pytest_runtest_logreport g report answer in
  trace r = [] /\ raised r = None /\
  (exists reports,
     test_reports (after r) !! rep_nodeid report = Some reports /\
     reports !! rep_when report = Some report /\
     forall phase, phase <> rep_when report ->
       reports !! phase =
         default ∅ (test_reports g !! rep_nodeid report) !! phase) /\
  (forall nodeid, nodeid <> rep_nodeid report ->
     test_reports (after r) !! nodeid = test_reports g !! nodeid).
Proof.
  intros Hen Hw r. unfold r. rewrite (logreport_store g report answer Hen Hw).
  cbn [after trace raised test_reports set_test_reports].
  split; [reflexivity|]. split; [reflexivity|]. split.
  - exists (buffered g report). split; [apply lookup_insert_eq|].
    unfold buffered. split; [apply lookup_insert_eq|].
    intros phase Hphase. apply lookup_insert_ne. congruence.
  - intros nodeid Hne. apply lookup_insert_ne. congruence.
Qed.

Lemma phase_report_is_stored_witness :
  let report := mk_report "t.py::test_a" "setup" "passed" 0%Qc None in
  trace (pytest_runtest_logreport enabled_globals report
           (Raises (OtherError "unused"))) = [].
Proof.
  intros report.
  refine (proj1 (phase_report_is_stored enabled_globals report _ eq_refl _)).
  discriminate.
Defined.

(** X2: when a phase of a test is reported twice before the teardown, the
    later report replaces the earlier one: the globals are the same as if
    the earlier report had never come. *)
Theorem later_report_replaces (g : globals) (first second : TestReport)
    (answer1 answer2 : post_result) :
  sequencer_reporting_enabled g = true ->
  rep_nodeid first = rep_nodeid second ->
  rep_when first = rep_when second ->
  rep_when second <> "teardown" ->
  after (pytest_runtest_logreport
           (after (pytest_runtest_logreport g first answer1)) second answer2) =
  after (pytest_runtest_logreport g second answer2).
Proof.
  intros Hen Hid Hw Hnt.
  rewrite (logreport_store g first answer1 Hen) by congruence.
  cbn [after].
  rewrite logreport_store by (cbn; assumption).
  rewrite (logreport_store g second answer2 Hen Hnt).
  cbn [after test_reports set_test_reports]. unfold set_test_reports. cbn.
  f_equal. unfold buffered. cbn [test_reports].
  rewrite Hid, Hw, lookup_insert_eq. unfold default. cbn [from_option id].
  rewrite !insert_insert_eq. reflexivity.
Qed.

Lemma later_report_replaces_witness :
  let first := mk_report "t.py::test_a" "call" "failed" (Q2Qc (3 # 1)) None in
  let second := mk_report "t.py::test_a" "call" "passed" (Q2Qc (1 # 1)) None in
  let answer := Raises (TransportError "refused") in
  after (pytest_runtest_logreport
           (after (pytest_runtest_logreport enabled_globals first answer))
           second answer) =
  after (pytest_runtest_logreport enabled_globals second answer).
Proof.
  intros first second answer.
  refine (later_report_replaces enabled_globals first second answer answer
            eq_refl eq_refl eq_refl _).
  discriminate.
Defined.

(** The hook reads and writes the entry of the report's test alone. *)
Lemma logreport_frame g report answer nodeid :
  nodeid <> rep_nodeid report ->
  test_reports (after (pytest_runtest_logreport g report answer)) !! nodeid =
    test_reports g !! nodeid.
Proof.
  intros Hne. destruct (sequencer_reporting_enabled g) eqn:Hen.
  - rewrite (logreport_enabled g report answer Hen). cbv zeta.
    destruct (String.eqb _ _); cbn [after test_reports set_test_reports].
    + apply lookup_delete_ne. congruence.
    + apply lookup_insert_ne. congruence.
  - rewrite (logreport_disabled g report answer Hen). reflexivity.
Qed.

(** What the hook does to the outside and what it raises depend on the
    configuration and on the entry of the report's test alone. *)
Lemma logreport_local g1 g2 report answer :
  sequencer_reporting_enabled g1 = sequencer_reporting_enabled g2 ->
  sequencer_api_url g1 = sequencer_api_url g2 ->
  test_reports g1 !! rep_nodeid report = test_reports g2 !! rep_nodeid report ->
  trace (pytest_runtest_logreport g1 report answer) =
    trace (pytest_runtest_logreport g2 report answer) /\
  raised (pytest_runtest_logreport g1 report answer) =
    raised (pytest_runtest_logreport g2 report answer).
Proof.
  intros Hen Hurl Hentry.
  destruct (sequencer_reporting_enabled g2) eqn:Hen2.
  - rewrite (logreport_enabled g1 report answer Hen),
            (logreport_enabled g2 report answer Hen2). cbv zeta.
    rewrite (buffered_entry g1 g2 report Hentry).
    destruct (String.eqb _ _); cbn [trace raised]; [|split; reflexivity].
    unfold deliver. rewrite Hurl. split; reflexivity.
  - rewrite (logreport_disabled g1 report answer Hen),
            (logreport_disabled g2 report answer Hen2). split; reflexivity.
Qed.

Lemma logreport_config g report answer :
  sequencer_reporting_enabled (after (pytest_runtest_logreport g report answer)) =
    sequencer_reporting_enabled g /\
  sequencer_api_url (after (pytest_runtest_logreport g report answer)) =
    sequencer_api_url g /\
  custom_options (after (pytest_runtest_logreport g report answer)) =
    custom_options g.
Proof.
  unfold pytest_runtest_logreport. destruct (negb _); [repeat split|]. cbv zeta.
  destruct (String.eqb _ _); [|repeat split].
  destruct (deliver _ _ _ _ _); repeat split.
Qed.

Lemma globals_eq g1 g2 :
  custom_options g1 = custom_options g2 ->
  sequencer_reporting_enabled g1 = sequencer_reporting_enabled g2 ->
  sequencer_api_url g1 = sequencer_api_url g2 ->
  test_reports g1 = test_reports g2 ->
  g1 = g2.
Proof. destruct g1, g2. cbn. intros -> -> -> ->. reflexivity. Qed.

(** X3: the reports of two different tests do not get in each other's way.
    Handled in either order, whatever their phases, they leave the same
    globals, and each is answered with the same trace and the same exception
    as if the other had not come: the buffer takes interleaved tests. *)
Theorem reports_of_different_tests_commute (g : globals) (r1 r2 : TestReport)
    (a1 a2 : post_result) :
  rep_nodeid r1 <> rep_nodeid r2 ->
  let first1 := pytest_runtest_logreport g r1 a1 in
  let first2 := pytest_runtest_logreport g r2 a2 in
  let then2 := pytest_runtest_logreport (after first1) r2 a2 in
  let then1 := pytest_runtest_logreport (after first2) r1 a1 in
  after then2 = after then1 /\
  trace then2 = trace first2 /\ raised then2 = raised first2 /\
  trace then1 = trace first1 /\ raised then1 = raised first1.
Proof.
  intros Hne first1 first2 then2 then1.
  pose proof (logreport_config g r1 a1) as (He1 & Hu1 & Ho1).
  pose proof (logreport_config g r2 a2) as (He2 & Hu2 & Ho2).
  fold first1 in He1, Hu1, Ho1. fold first2 in He2, Hu2, Ho2.
  assert (H2 : trace then2 = trace first2 /\ raised then2 = raised first2).
  { apply logreport_local; [exact He1|exact Hu1|].
    apply logreport_frame. congruence. }
  assert (H1 : trace then1 = trace first1 /\ raised then1 = raised first1).
  { apply logreport_local; [exact He2|exact Hu2|].
    apply logreport_frame. congruence. }
  split; [|tauto].
  pose proof (logreport_config (after first1) r2 a2) as (He12 & Hu12 & Ho12).
  pose proof (logreport_config (after first2) r1 a1) as (He21 & Hu21 & Ho21).
  fold then2 in He12, Hu12, Ho12. fold then1 in He21, Hu21, Ho21.
  apply globals_eq; [congruence..|].
  destruct (sequencer_reporting_enabled g) eqn:Hen.
  - assert (Hb2 : buffered (after first1) r2 = buffered g r2).
    { apply buffered_entry, logreport_frame. congruence. }
    assert (Hb1 : buffered (after first2) r1 = buffered g r1).
    { apply buffered_entry, logreport_frame. congruence. }
    unfold then2, then1.
    rewrite (logreport_enabled (after first1) r2 a2) by congruence.
    rewrite (logreport_enabled (after first2) r1 a1) by congruence.
    cbv zeta. rewrite Hb1, Hb2. unfold first1, first2.
    rewrite (logreport_enabled g r1 a1 Hen), (logreport_enabled g r2 a2 Hen).
    cbv zeta.
    destruct (String.eqb (rep_when r1) "teardown"),
             (String.eqb (rep_when r2) "teardown");
      cbn [after test_reports set_test_reports].
    + apply delete_delete.
    + symmetry. apply delete_insert_ne. congruence.
    + apply delete_insert_ne. congruence.
    + apply insert_insert_ne. congruence.
  - unfold then2, then1, first1, first2.
    rewrite (logreport_disabled g r1 a1 Hen), (logreport_disabled g r2 a2 Hen).
    cbn [after]. rewrite (logreport_disabled g r1 a1 Hen), (logreport_disabled g r2 a2 Hen).
    reflexivity.
Qed.

Lemma reports_of_different_tests_commute_witness :
  let r1 := mk_report "t.py::test_a" "call" "passed" 0%Qc None in
  let r2 := mk_report "t.py::test_b" "teardown" "passed" 0%Qc None in
  let a := Raises (TransportError "refused") in
  after (pytest_runtest_logreport
           (after (pytest_runtest_logreport enabled_globals r1 a)) r2 a) =
  after (pytest_runtest_logreport
           (after (pytest_runtest_logreport enabled_globals r2 a)) r1 a).
Proof.
  intros r1 r2 a.
  refine (proj1 (reports_of_different_tests_commute enabled_globals r1 r2 a a _)).
  discriminate.
Defined.

(** ** The finished message and what the hooks raise *)

Lemma phase_properties_own reports phase :
  phase_properties reports phase = properties_of reports phase.
Proof.
  unfold phase_properties, properties_of.
  destruct (reports !! phase) as [rep|]; [|reflexivity].
  destruct (rep_user_properties rep); reflexivity.
Qed.

Lemma collect_user_properties_order reports :
  collect_user_properties reports =
    (properties_of reports "call" ++ properties_of reports "setup"
     ++ properties_of reports "teardown")%list.
Proof.
  unfold collect_user_properties. cbn [foldl].
  rewrite !phase_properties_own, app_nil_l, <- app_assoc. reflexivity.
Qed.

(** X4: the details of the finished message are the user properties of the
    call report, then those of the setup report, then those of the teardown
    report that is being handled, each list in its own order; a phase without
    a report brings none. *)
Theorem finished_details_order (g : globals) (report : TestReport)
    (answer : post_result) :
  sequencer_reporting_enabled g = true ->
  rep_when report = "teardown" ->
  let reports := buffered g report in
  posts (trace (pytest_runtest_logreport g report answer)) =
    [Post (target g)
       (test_finished (rep_nodeid report) (reconcile_outcome reports)
          (total_duration reports)
          (properties_of reports "call" ++ properties_of reports "setup"
           ++ rep_user_properties report)%list)].
Proof.
  intros Hen Hw reports.
  rewrite (logreport_teardown g report answer Hen Hw). cbn [trace].
  rewrite deliver_posts. unfold finished_message. fold reports.
  rewrite collect_user_properties_order.
  replace (properties_of reports "teardown") with (rep_user_properties report);
    [reflexivity|].
  unfold properties_of, reports, buffered. rewrite Hw, lookup_insert_eq. reflexivity.
Qed.

Lemma finished_details_order_witness :
  let id := "t.py::test_a" in
  let with_props when ps :=
    {| rep_nodeid := id; rep_when := when; rep_outcome := "passed";
       rep_duration := 0%Qc; rep_wasxfail := None; rep_user_properties := ps |} in
  let g := set_test_reports enabled_globals
             (<[id := <["call" := with_props "call" [("c", JsonValue (PyInt 2))]]>
                        (<["setup" := with_props "setup" [("s", JsonValue (PyInt 1))]]> ∅)]> ∅) in
  let report := with_props "teardown" [("t", JsonValue (PyInt 3))] in
  posts (trace (pytest_runtest_logreport g report (Raises (TransportError "refused")))) =
    [Post "http://localhost:8765//message"
       (test_finished id "passed" 0%Qc
          [("c", JsonValue (PyInt 2)); ("s", JsonValue (PyInt 1));
           ("t", JsonValue (PyInt 3))])].
Proof.
  intros id with_props g report.
  rewrite (finished_details_order g report (Raises (TransportError "refused"))
             eq_refl eq_refl).
  do 2 f_equal.
Defined.

(** X5: a reporting hook raises in one case only: it attempted a delivery,
    the [try] block was left by an exception, and the exception is not a
    [requests.RequestException]; it then raises that very exception.  The
    hook for the start of a test attempts a delivery when the test id is not
    empty and reporting is enabled, the hook for a report when the report is a
    teardown report and reporting is enabled. *)
Theorem hooks_raise_exactly (g : globals) (nodeid : string) (report : TestReport)
    (answer : post_result) (e : exn) :
  (raised (pytest_runtest_logstart g nodeid answer) = Some e <->
   nodeid <> "" /\ sequencer_reporting_enabled g = true /\
   attempt answer = Some e /\ is_RequestException e = false) /\
  (raised (pytest_runtest_logreport g report answer) = Some e <->
   rep_when report = "teardown" /\ sequencer_reporting_enabled g = true /\
   attempt answer = Some e /\ is_RequestException e = false).
Proof.
  assert (Hd : forall msg sent failed,
    snd (deliver g msg sent failed answer) = Some e <->
    attempt answer = Some e /\ is_RequestException e = false).
  { intros. rewrite deliver_raised.
    destruct (attempt answer) as [e'|]; [|split; [discriminate|intros [? _]; discriminate]].
    destruct (is_RequestException e') eqn:He'; split.
    - discriminate.
    - intros [[= ->] H]. congruence.
    - intros [= ->]. auto.
    - intros [[= ->] _]. reflexivity. }
  split.
  - unfold pytest_runtest_logstart.
    destruct (String.eqb_spec nodeid "") as [->|Hne]; cbn [orb].
    { split; [discriminate|intros [H _]; contradiction]. }
    destruct (sequencer_reporting_enabled g); cbn [negb].
    + specialize (Hd (test_started nodeid)
                     ("Sent test_started message for " ++ nodeid)
                     ("Failed to send test_started message for " ++ nodeid)).
      destruct (deliver _ _ _ _ _) as [tr exc]. cbn [raised snd] in *.
      rewrite Hd. tauto.
    + split; [discriminate|intros (_ & H & _); discriminate].
  - destruct (sequencer_reporting_enabled g) eqn:Hen.
    + rewrite (logreport_enabled g report answer Hen). cbv zeta.
      destruct (String.eqb_spec (rep_when report) "teardown") as [Hw|Hw]; cbn [raised].
      * rewrite Hd. tauto.
      * split; [discriminate|intros [H _]; contradiction].
    + rewrite (logreport_disabled g report answer Hen). cbn [raised].
      split; [discriminate|intros (_ & H & _); discriminate].
Qed.

(** X6: when the delivery of a finished message goes through, the hook
    returns and prints one line after the post, and the outcome in that line
    is the outcome in the message that was posted. *)
Theorem delivered_finish_is_logged (g : globals) (report : TestReport)
    (answer : post_result) :
  sequencer_reporting_enabled g = true ->
  rep_when report = "teardown" ->
  attempt answer = None ->
  let outcome := reconcile_outcome (buffered g report) in
  pytest_runtest_logreport g report answer =
    {| after := set_test_reports g (delete (rep_nodeid report) (test_reports g));
       trace :=
         [Post (target g)
            (test_finished (rep_nodeid report) outcome
               (total_duration (buffered g report))
               (collect_user_properties (buffered g report)));
          Print ("Sent test_finished message for " ++ rep_nodeid report
                   ++ " with outcome: " ++ outcome)];
       raised := None |}.
Proof.
  intros Hen Hw Hok outcome.
  rewrite (logreport_teardown g report answer Hen Hw). cbv zeta.
  unfold deliver. fold (attempt answer). rewrite Hok. reflexivity.
Qed.

Lemma delivered_finish_is_logged_witness :
  let report := mk_report "t.py::test_a" "teardown" "passed" 0%Qc None in
  let answer := Returns {| status_code := 200; reason := "OK"; url := "" |} in
  trace (pytest_runtest_logreport enabled_globals report answer) =
    [Post "http://localhost:8765//message"
       (test_finished "t.py::test_a" "error" 0%Qc []);
     Print "Sent test_finished message for t.py::test_a with outcome: error"].
Proof.
  intros report answer.
  rewrite (delivered_finish_is_logged enabled_globals report answer
             eq_refl eq_refl eq_refl).
  reflexivity.
Defined.

(** ** Runs of the hooks *)

Lemma logstart_after g nodeid answer :
  after (pytest_runtest_logstart g nodeid answer) = g.
Proof.
  unfold pytest_runtest_logstart. destruct (_ || _); [reflexivity|].
  destruct (deliver _ _ _ _ _); reflexivity.
Qed.

Lemma call_hook_url g c :
  sequencer_api_url (after (call_hook g c)) = sequencer_api_url g.
Proof.
  destruct c as [nodeid answer|report answer|]; cbn [call_hook].
  - rewrite logstart_after. reflexivity.
  - apply logreport_config.
  - reflexivity.
Qed.

Lemma posts_app tr1 tr2 : posts (tr1 ++ tr2) = (posts tr1 ++ posts tr2)%list.
Proof. apply List.filter_app. Qed.

Lemma call_hook_posts g c :
  posts (trace (call_hook g c)) =
    if attempts_delivery g c then
      match c with
      | LogStart nodeid _ => [Post (target g) (test_started nodeid)]
      | LogReport report _ =>
          [Post (target g) (finished_message (rep_nodeid report) (buffered g report))]
      | SessionFinish => []
      end
    else [].
Proof.
  destruct c as [nodeid answer|report answer|]; cbn [call_hook attempts_delivery].
  - unfold pytest_runtest_logstart.
    destruct (String.eqb nodeid ""); [reflexivity|].
    destruct (sequencer_reporting_enabled g); [|reflexivity]. cbn [orb negb andb].
    pose proof (deliver_posts g (test_started nodeid)
                  ("Sent test_started message for " ++ nodeid)
                  ("Failed to send test_started message for " ++ nodeid) answer) as H.
    destruct (deliver _ _ _ _ _) as [tr exc]. exact H.
  - destruct (sequencer_reporting_enabled g) eqn:Hen.
    + rewrite (logreport_enabled g report answer Hen). cbv zeta. cbn [andb].
      destruct (String.eqb _ _); [|reflexivity]. cbn [trace]. apply deliver_posts.
    + rewrite (logreport_disabled g report answer Hen). reflexivity.
  - reflexivity.
Qed.

(** X7: in any run of the hooks there is one delivery attempt for each
    start of a test with a test id and for each teardown report when
    reporting is enabled, and no other: nothing is sent for the other phases,
    and a delivery that failed is not tried again. *)
Theorem one_attempt_per_event (g : globals) (calls : list hook_call) :
  length (posts (snd (run_hooks g calls))) =
    length (List.filter (attempts_delivery g) calls).
Proof.
  revert g. induction calls as [|c rest IH]; intros g; [reflexivity|].
  cbn [run_hooks List.filter]. specialize (IH (after (call_hook g c))).
  destruct (run_hooks (after (call_hook g c)) rest) as [g' tr]. cbn [snd] in *.
  rewrite posts_app, length_app, IH, call_hook_posts.
  assert (Hsame : List.filter (attempts_delivery (after (call_hook g c))) rest =
                  List.filter (attempts_delivery g) rest).
  { apply List.filter_ext. intros c'. unfold attempts_delivery.
    rewrite call_hook_enabled. reflexivity. }
  rewrite Hsame.
  destruct (attempts_delivery g c) eqn:Hc; [|reflexivity].
  destruct c; [reflexivity|reflexivity|discriminate].
Qed.

(** X8: every delivery of a session goes to the address given on the
    command line followed by [/message], whatever hooks are called and
    whatever the HTTP client answers. *)
Theorem deliveries_go_to_the_configured_address (c : config)
    (calls : list hook_call) (host_status : Z) :
  Forall (fun ev => exists msg, ev = Post (sequencer_api c ++ "/message") msg)
         (posts (snd (pytest_session c calls host_status))).
Proof.
  assert (Hrun : forall calls g,
    Forall (fun ev => exists msg, ev = Post (target g) msg)
           (posts (snd (fst (run_test_loop g calls))))).
  { clear calls. intros calls. induction calls as [|k rest IH]; intros g.
    - constructor.
    - assert (Hk : Forall (fun ev => exists msg, ev = Post (target g) msg)
                          (posts (trace (call_hook g k)))).
      { rewrite call_hook_posts. destruct (attempts_delivery g k); [|constructor].
        destruct k; repeat constructor; eexists; reflexivity. }
      cbn [run_test_loop]. destruct (raised (call_hook g k)); [exact Hk|].
      specialize (IH (after (call_hook g k))).
      destruct (run_test_loop (after (call_hook g k)) rest) as [[g' tr] exc].
      cbn [fst snd] in *.
      rewrite posts_app. apply Forall_app. split; [exact Hk|].
      unfold target in *. rewrite call_hook_url in IH. exact IH. }
  unfold pytest_session.
  set (configured := pytest_configure (pytest_addoption initial_globals) c).
  assert (Hconf : posts (trace configured) = []).
  { unfold configured, pytest_configure. cbn [trace].
    destruct (sequencer_reporting_enabled _); reflexivity. }
  unfold pytest_sessionstart. destruct (list_options c); cbn [raised trace after].
  - cbn [snd]. rewrite posts_app, Hconf. constructor.
  - specialize (Hrun calls (after configured)).
    destruct (run_test_loop (after configured) calls) as [[g' tr] exc].
    cbn [fst snd] in *.
    rewrite !posts_app, Hconf. cbn [app posts List.filter]. exact Hrun.
Qed.

Lemma run_hooks_app g calls1 calls2 :
  run_hooks g (calls1 ++ calls2) =
    (fst (run_hooks (fst (run_hooks g calls1)) calls2),
     (snd (run_hooks g calls1)
      ++ snd (run_hooks (fst (run_hooks g calls1)) calls2))%list).
Proof.
  revert g. induction calls1 as [|c rest IH]; intros g.
  - cbn. destruct (run_hooks g calls2); reflexivity.
  - cbn [app run_hooks]. rewrite IH.
    destruct (run_hooks (after (call_hook g c)) rest) as [g1 tr1]. cbn [fst snd].
    rewrite app_assoc. reflexivity.
Qed.

(** The reports before the teardown pile up in the entry of the test and
    touch nothing else. *)
Lemma run_early_reports nodeid (early : list (TestReport * post_result)) g :
  sequencer_reporting_enabled g = true ->
  Forall (fun ra => rep_nodeid (fst ra) = nodeid /\
                    rep_when (fst ra) <> "teardown") early ->
  let run := run_hooks g (List.map (fun ra => LogReport (fst ra) (snd ra)) early) in
  snd run = [] /\
  sequencer_reporting_enabled (fst run) = true /\
  sequencer_api_url (fst run) = sequencer_api_url g /\
  custom_options (fst run) = custom_options g /\
  delete nodeid (test_reports (fst run)) = delete nodeid (test_reports g) /\
  default ∅ (test_reports (fst run) !! nodeid) =
    foldl (fun m r => <[rep_when r := r]> m)
          (default ∅ (test_reports g !! nodeid)) (List.map fst early).
Proof.
  intros Hen Hearly. revert g Hen.
  induction Hearly as [|[r a] rest [Hid Hw] _ IH]; intros g Hen.
  - cbn. repeat split; assumption.
  - cbn [List.map run_hooks call_hook fst snd].
    rewrite (logreport_store g r a Hen Hw). cbn [after trace].
    set (g1 := set_test_reports g (<[rep_nodeid r := buffered g r]> (test_reports g))).
    specialize (IH g1 Hen). cbv zeta in IH.
    destruct (run_hooks g1 _) as [g2 tr]. cbn [fst snd] in *.
    destruct IH as (Htr & Hen2 & Hurl & Hopt & Hdel & Hentry).
    rewrite Htr. repeat split; try assumption.
    + rewrite Hdel. unfold g1. cbn [test_reports set_test_reports].
      rewrite Hid. apply delete_insert_eq.
    + rewrite Hentry. unfold g1. cbn [test_reports set_test_reports foldl].
      rewrite Hid, lookup_insert_eq. unfold buffered. rewrite Hid. reflexivity.
Qed.

Lemma run_item g i :
  sequencer_reporting_enabled g = true ->
  well_formed_item i ->
  test_reports g !! item_nodeid i = None ->
  fst (run_hooks g (item_calls i)) = g /\
  posts (snd (run_hooks g (item_calls i))) = item_posts g i.
Proof.
  intros Hen (Hid & Hearly & Htid & Htw) Hfresh.
  unfold item_calls. cbn [run_hooks call_hook].
  rewrite logstart_after.
  pose proof (call_hook_posts g (LogStart (item_nodeid i) (item_start_answer i)))
    as Hstart.
  cbn [call_hook attempts_delivery] in Hstart.
  rewrite Hen, andb_true_r in Hstart.
  destruct (String.eqb_spec (item_nodeid i) "") as [|_]; [contradiction|].
  cbn [negb] in Hstart.
  rewrite run_hooks_app.
  pose proof (run_early_reports (item_nodeid i) (item_early i) g Hen Hearly)
    as (Htr & Hen1 & Hurl & Hopt & Hdel & Hentry).
  cbv zeta in Htr, Hen1, Hurl, Hopt, Hdel, Hentry.
  set (g1 := fst (run_hooks g
                    (List.map (fun ra => LogReport (fst ra) (snd ra)) (item_early i)))) in *.
  cbn [fst snd]. rewrite Htr. cbn [app run_hooks call_hook fst snd].
  rewrite (logreport_teardown g1 (item_teardown i) (item_finish_answer i) Hen1 Htw).
  cbn [after trace]. rewrite Htid. split.
  - apply globals_eq; cbn [custom_options sequencer_reporting_enabled
                            sequencer_api_url test_reports set_test_reports].
    + exact Hopt.
    + congruence.
    + exact Hurl.
    + rewrite Hdel. apply delete_id, Hfresh.
  - rewrite posts_app, Hstart, app_nil_r, deliver_posts. unfold item_posts.
    unfold target. rewrite Hurl. do 3 f_equal.
    unfold buffered. rewrite Htid, Hentry, Hfresh, Htw.
    unfold stored_reports. rewrite foldl_app. cbn [foldl default from_option].
    rewrite Htw. reflexivity.
Qed.

Lemma run_items g items :
  sequencer_reporting_enabled g = true ->
  Forall (fun i => well_formed_item i /\ test_reports g !! item_nodeid i = None)
         items ->
  fst (run_hooks g (concat (List.map item_calls items))) = g /\
  posts (snd (run_hooks g (concat (List.map item_calls items)))) =
    concat (List.map (item_posts g) items).
Proof.
  intros Hen Hitems.
  induction Hitems as [|i rest [Hwf Hfresh] _ IH]; [split; reflexivity|].
  cbn [List.map concat]. rewrite run_hooks_app. cbn [fst snd].
  destruct (run_item g i Hen Hwf Hfresh) as [Hg Hposts].
  rewrite Hg. destruct IH as [IHg IHposts].
  split; [exact IHg|].
  rewrite posts_app, Hposts, IHposts. reflexivity.
Qed.

(** X9: tests that run one after the other, each with a test id that has no
    entry in the buffer, each as a start, the reports of its earlier phases
    and its teardown report, leave the globals as they were, so the buffer
    does not grow, and give two delivery attempts per test, in order: the
    started message, then the finished message built from the reports of
    that test alone. *)
Theorem sequential_tests (g : globals) (items : list test_item) :
  sequencer_reporting_enabled g = true ->
  Forall (fun i => well_formed_item i /\ test_reports g !! item_nodeid i = None)
         items ->
  let run := run_hooks g (concat (List.map item_calls items)) in
  fst run = g /\
  posts (snd run) = concat (List.map (item_posts g) items).
Proof. intros Hen Hitems. exact (run_items g items Hen Hitems). Qed.

Lemma sequential_tests_witness :
  let ok := Returns {| status_code := 200; reason := "OK"; url := "" |} in
  let down := Raises (TransportError "refused") in
  let a :=
    {| item_nodeid := "t.py::test_a"; item_start_answer := ok;
       item_early := [(mk_report "t.py::test_a" "setup" "passed" 0%Qc None, ok);
                      (mk_report "t.py::test_a" "call" "failed" 0%Qc None, ok)];
       item_teardown := mk_report "t.py::test_a" "teardown" "passed" 0%Qc None;
       item_finish_answer := down |} in
  let b :=
    {| item_nodeid := "t.py::test_b"; item_start_answer := down;
       item_early := [(mk_report "t.py::test_b" "setup" "skipped" 0%Qc None, ok)];
       item_teardown := mk_report "t.py::test_b" "teardown" "passed" 0%Qc None;
       item_finish_answer := ok |} in
  fst (run_hooks enabled_globals (concat (List.map item_calls [a; b])))
    = enabled_globals.
Proof.
  intros ok down a b.
  refine (proj1 (sequential_tests enabled_globals [a; b] eq_refl _)).
  repeat constructor; cbn; discriminate.
Defined.

Lemma call_hook_keeps_entry g c nodeid :
  is_teardown_of nodeid c = false ->
  is_Some (test_reports g !! nodeid) ->
  is_Some (test_reports (after (call_hook g c)) !! nodeid).
Proof.
  intros Hc Hsome. destruct c as [id answer|report answer|]; cbn [call_hook].
  - rewrite logstart_after. exact Hsome.
  - destruct (String.eqb_spec (rep_nodeid report) nodeid) as [Hid|Hid].
    + cbn [is_teardown_of] in Hc.
      destruct (String.eqb_spec (rep_nodeid report) nodeid); [|contradiction].
      cbn [andb] in Hc.
      destruct (sequencer_reporting_enabled g) eqn:Hen.
      * rewrite (logreport_enabled g report answer Hen). cbv zeta. rewrite Hc.
        cbn [after test_reports set_test_reports]. rewrite Hid, lookup_insert_eq.
        eexists; reflexivity.
      * rewrite (logreport_disabled g report answer Hen). exact Hsome.
    + rewrite logreport_frame by congruence. exact Hsome.
  - exact Hsome.
Qed.

(** X10: an entry leaves the buffer through a teardown report for its test
    and in no other way: in a run with no such report the entry is still
    there at the end, whatever else is reported, started or finished; the end
    of the session does not clear it either. *)
Theorem entry_stays_without_teardown (g : globals) (calls : list hook_call)
    (nodeid : string) :
  is_Some (test_reports g !! nodeid) ->
  forallb (fun c => negb (is_teardown_of nodeid c)) calls = true ->
  is_Some (test_reports (fst (run_hooks g calls)) !! nodeid).
Proof.
  revert g. induction calls as [|c rest IH]; intros g Hsome Hcalls; [exact Hsome|].
  cbn [forallb] in Hcalls. apply andb_true_iff in Hcalls as [Hc Hrest].
  apply negb_true_iff in Hc.
  cbn [run_hooks]. specialize (IH (after (call_hook g c))
                                  (call_hook_keeps_entry g c nodeid Hc Hsome) Hrest).
  destruct (run_hooks (after (call_hook g c)) rest) as [g' tr]. exact IH.
Qed.

Lemma entry_stays_without_teardown_witness :
  let ok := Returns {| status_code := 200; reason := "OK"; url := "" |} in
  let g := set_test_reports enabled_globals
             (<["t.py::test_a" :=
                  <["setup" := mk_report "t.py::test_a" "setup" "passed" 0%Qc None]> ∅]> ∅) in
  is_Some
    (test_reports
       (fst (run_hooks g
               [LogReport (mk_report "t.py::test_a" "call" "passed" 0%Qc None) ok;
                LogStart "t.py::test_b" ok;
                LogReport (mk_report "t.py::test_b" "teardown" "passed" 0%Qc None) ok;
                SessionFinish]))
     !! "t.py::test_a").
Proof.
  intros ok g.
  apply entry_stays_without_teardown; [eexists; reflexivity|reflexivity].
Defined.

(** X11: a session without the listing flag and without the flag that
    enables reporting, which is how the flags default, prints the one line
    that says so when it is configured and then sends and prints nothing,
    whatever tests run; its exit status is the host's. *)
Theorem default_session_is_silent (c : config) (calls : list hook_call)
    (host_status : Z) :
  enable_sequencer_reporting c = false ->
  list_options c = false ->
  pytest_session c calls host_status =
    (host_status, [Print "Sequencer reporting is disabled."]).
Proof.
  intros Hen Hlist. unfold pytest_session, pytest_sessionstart. rewrite Hlist.
  cbn [raised after trace].
  rewrite run_test_loop_disabled by (cbn; exact Hen).
  unfold pytest_configure. cbn [trace sequencer_reporting_enabled].
  rewrite Hen. reflexivity.
Qed.

Lemma default_session_is_silent_witness :
  let c := {| enable_sequencer_reporting := false; list_options := false;
              sequencer_api := "http://localhost:8765/" |} in
  let ok := Returns {| status_code := 200; reason := "OK"; url := "" |} in
  pytest_session c
    [LogStart "t.py::test_a" ok;
     LogReport (mk_report "t.py::test_a" "teardown" "passed" 0%Qc None) ok] 1 =
    (1%Z, [Print "Sequencer reporting is disabled."]).
Proof.
  intros c ok. exact (default_session_is_silent c _ 1 eq_refl eq_refl).
Defined.

(** ** More on the outcome *)

(** X12: the mark of an expected failure is the truth value of [wasxfail],
    so a report whose [wasxfail] is the empty string, as for an expected
    failure declared without a reason, counts as not marked: with no
    unexpected failure in setup and teardown the outcome is the call
    report's own outcome, not [xfailed] or [xpassed]. *)
Theorem empty_xfail_reason_is_no_mark (reports : phase_reports) (call : TestReport) :
  reports !! "call" = Some call ->
  rep_wasxfail call = Some "" ->
  ~ unexpected_failure (reports !! "setup") ->
  ~ unexpected_failure (reports !! "teardown") ->
  marked_xfail call = false /\ reconcile_outcome reports = rep_outcome call.
Proof.
  intros Hc Hx Hs Ht.
  assert (Hm : marked_xfail call = false).
  { unfold marked_xfail, getattr_wasxfail. rewrite Hx. reflexivity. }
  split; [exact Hm|].
  rewrite (reconcile_no_unexpected_failure reports Hs Ht), Hc, Hm. reflexivity.
Qed.

Lemma empty_xfail_reason_is_no_mark_witness :
  let call := mk_report "t.py::test_a" "call" "skipped" 0%Qc (Some "") in
  let reports : phase_reports :=
    <["setup" := mk_report "t.py::test_a" "setup" "passed" 0%Qc None]>
      (<["call" := call]>
         (<["teardown" := mk_report "t.py::test_a" "teardown" "passed" 0%Qc None]> ∅)) in
  reconcile_outcome reports = "skipped".
Proof.
  intros call reports.
  refine (proj2 (empty_xfail_reason_is_no_mark reports call eq_refl eq_refl _ _)).
  - intros (r & Hr & Ho & _). vm_compute in Hr. inversion Hr; subst r. discriminate Ho.
  - intros (r & Hr & Ho & _). vm_compute in Hr. inversion Hr; subst r. discriminate Ho.
Defined.


(** X14: without a call report the outcome is [skipped] or [error], and it
    is [skipped] exactly when the setup report has the outcome [skipped] and
    the teardown did not fail unexpectedly; a setup report that is marked as
    an expected failure does not change this. *)
Theorem no_call_report_in_full (reports : phase_reports) :
  reports !! "call" = None ->
  (reconcile_outcome reports = "skipped" \/ reconcile_outcome reports = "error") /\
  (reconcile_outcome reports = "skipped" <->
   (exists setup, reports !! "setup" = Some setup /\ rep_outcome setup = "skipped") /\
   ~ unexpected_failure (reports !! "teardown")).
Proof.
  intros Hc.
  destruct (failed_unexpectedly (reports !! "setup")) eqn:Hs.
  { assert (Herr : reconcile_outcome reports = "error").
    { unfold reconcile_outcome. rewrite Hs. reflexivity. }
    rewrite Herr. split; [right; reflexivity|]. split; [discriminate|].
    intros [(setup & Hsetup & Hsk) _].
    apply failed_unexpectedly_true in Hs as (r & Hr & Ho & _).
    rewrite Hsetup in Hr. injection Hr as <-. rewrite Hsk in Ho. discriminate. }
  destruct (failed_unexpectedly (reports !! "teardown")) eqn:Ht.
  { assert (Herr : reconcile_outcome reports = "error").
    { unfold reconcile_outcome. rewrite Hs, Ht. reflexivity. }
    rewrite Herr. split; [right; reflexivity|]. split; [discriminate|].
    intros [_ Hno]. apply failed_unexpectedly_true in Ht. contradiction. }
  apply failed_unexpectedly_false in Hs, Ht.
  rewrite (reconcile_no_unexpected_failure reports Hs Ht), Hc.
  destruct (reports !! "setup") as [setup|].
  - destruct (String.eqb_spec (rep_outcome setup) "skipped") as [Hsk|Hsk].
    + split; [left; reflexivity|]. split; [|reflexivity]. intros _. eauto.
    + split; [right; reflexivity|]. split; [discriminate|].
      intros [(s & [= <-] & Hsk') _]. contradiction.
  - split; [right; reflexivity|]. split; [discriminate|].
    intros [(s & Hsome & _) _]. discriminate.
Qed.

Lemma no_call_report_in_full_witness :
  let reports : phase_reports :=
    <["setup" := mk_report "t.py::test_a" "setup" "failed" 0%Qc (Some "known bug")]>
      (<["teardown" := mk_report "t.py::test_a" "teardown" "passed" 0%Qc None]> ∅) in
  reconcile_outcome reports = "skipped" \/ reconcile_outcome reports = "error".
Proof.
  intros reports. exact (proj1 (no_call_report_in_full reports eq_refl)).
Defined.

(** ** More on the options *)

Lemma kwargs_get_missing kwargs key :
  ~ In key (List.map fst kwargs) -> kwargs_get kwargs key = PyNone.
Proof.
  induction kwargs as [|[k v] rest IH]; intros Hnot; [reflexivity|].
  cbn [kwargs_get]. cbn [List.map fst In] in Hnot.
  destruct (String.eqb_spec k key) as [->|Hne]; [tauto|]. apply IH. tauto.
Qed.

(** X15: the registered options pile up in the order of registration: an
    option that is added comes last in the listing, after all that were
    there, with the [default] and the [help] it was given, [None] for one
    that was not given; an option with the name of the listing flag is not
    shown, whoever registers it. *)
Theorem added_option_is_listed_last (g : globals) (name : string)
    (kwargs : list (string * pyval)) :
  options_to_list (add_custom_option g name kwargs) =
    (options_to_list g ++
     (if String.eqb name "--list-options" then []
      else [{| opt_name := name;
               opt_default := kwargs_get kwargs "default";
               opt_help := kwargs_get kwargs "help" |}]))%list /\
  (forall key, ~ In key (List.map fst kwargs) -> kwargs_get kwargs key = PyNone) /\
  options_to_list (pytest_addoption g) = (options_to_list g ++ listed_options)%list.
Proof.
  split; [|split].
  - unfold options_to_list, add_custom_option. cbn [custom_options set_custom_options].
    rewrite List.filter_app. cbn [List.filter opt_name].
    destruct (String.eqb name "--list-options"); reflexivity.
  - intros key. apply kwargs_get_missing.
  - unfold options_to_list, pytest_addoption, add_custom_option.
    cbn [custom_options set_custom_options].
    rewrite !List.filter_app, <- !app_assoc. reflexivity.
Qed.

(** ** The listing is one line of ASCII *)

Lemma all_printable_app s1 s2 :
  all_printable (s1 ++ s2) = all_printable s1 && all_printable s2.
Proof.
  induction s1 as [|c s1 IH]; [reflexivity|].
  change (printable_char c && all_printable (s1 ++ s2) =
          printable_char c && all_printable s1 && all_printable s2).
  rewrite IH, andb_assoc. reflexivity.
Qed.

Lemma escape_char_printable c : all_printable (escape_char c) = true.
Proof. destruct c as [[] [] [] [] [] [] [] []]; reflexivity. Qed.

Lemma escape_printable s : all_printable (escape s) = true.
Proof.
  induction s as [|c s IH]; [reflexivity|].
  cbn [escape]. rewrite all_printable_app, escape_char_printable, IH. reflexivity.
Qed.

Lemma json_string_printable s : all_printable (json_string s) = true.
Proof.
  unfold json_string. rewrite !all_printable_app, escape_printable. reflexivity.
Qed.

Lemma pretty_N_go_printable x s :
  all_printable s = true -> all_printable (pretty_N_go x s) = true.
Proof.
  revert s. induction (N.lt_wf_0 x) as [x _ IH]; intros s Hs.
  destruct (N.eq_dec x 0%N) as [->|Hx]; [exact Hs|].
  rewrite pretty_N_go_step by lia.
  apply IH; [apply N.div_lt; lia|].
  cbn [all_printable]. rewrite Hs, andb_true_r.
  unfold pretty_N_char. repeat case_match; reflexivity.
Qed.

Lemma pretty_Z_printable (z : Z) : all_printable (pretty z) = true.
Proof.
  assert (HN : forall p, all_printable (pretty (N.pos p)) = true).
  { intros p. unfold pretty, pretty_N. destruct (decide (N.pos p = 0%N)); [reflexivity|].
    apply pretty_N_go_printable. reflexivity. }
  destruct z as [|p|p]; [reflexivity|apply HN|].
  change (pretty (Z.neg p)) with ("-" ++ pretty (N.pos p)).
  rewrite all_printable_app, HN. reflexivity.
Qed.

Lemma join_items_printable items :
  forallb all_printable items = true -> all_printable (join_items items) = true.
Proof.
  induction items as [|x rest IH]; [reflexivity|].
  cbn [forallb join_items]. intros [Hx Hrest]%andb_true_iff.
  destruct rest as [|y rest']; [exact Hx|].
  rewrite !all_printable_app, Hx, (IH Hrest). reflexivity.
Qed.

Lemma json_dumps_printable : forall v, all_printable (json_dumps v) = true.
Proof.
  fix IH 1. intros [|[]|z|s|l]; cbn [json_dumps]; try reflexivity.
  - apply pretty_Z_printable.
  - apply json_string_printable.
  - assert (H : all_printable (join_items (List.map json_dumps l)) = true).
    { apply join_items_printable.
      induction l as [|v l IHl]; [reflexivity|].
      cbn [List.map forallb]. rewrite (IH v), IHl. reflexivity. }
    rewrite !all_printable_app, H. reflexivity.
Qed.

Lemma json_dumps_dict_printable d : all_printable (json_dumps_dict d) = true.
Proof.
  assert (H : all_printable
                (join_items
                   (List.map (fun kv => json_string (fst kv) ++ ": "
                                          ++ json_dumps (snd kv)) d)) = true).
  { apply join_items_printable.
    induction d as [|[k v] d IH]; [reflexivity|].
    cbn [List.map forallb fst snd].
    rewrite !all_printable_app, json_string_printable, json_dumps_printable, IH.
    reflexivity. }
  unfold json_dumps_dict. rewrite !all_printable_app, H. reflexivity.
Qed.

(** X16: the line that the listing prints holds nothing but characters of
    the printable ASCII range, whatever the names, the defaults and the help
    texts of the options hold: a line break or a character outside ASCII in
    one of them is escaped, so the listing is one line. *)
Theorem listing_is_printable_ascii (g : globals) (c : config) (line : string) :
  In (Print line) (trace (pytest_sessionstart g c)) ->
  all_printable line = true.
Proof.
  unfold pytest_sessionstart. destruct (list_options c); cbn [trace]; [|intros []].
  intros [[= <-]|[]].
  set (os := List.filter _ _).
  assert (H : all_printable
                (join_items
                   (List.map (fun o => json_dumps_dict (option_dict o)) os)) = true).
  { apply join_items_printable. clearbody os.
    induction os as [|o os IH]; [reflexivity|].
    cbn [List.map forallb]. rewrite json_dumps_dict_printable, IH. reflexivity. }
  unfold json_dumps_options. rewrite !all_printable_app, H. reflexivity.
Qed.

Lemma listing_is_printable_ascii_witness :
  let newline := String (ascii_of_nat 10) "" in
  let g := add_custom_option initial_globals "--tag"
             [("help", PyStr ("first line" ++ newline ++ "second line"))] in
  let c := {| enable_sequencer_reporting := false; list_options := true;
              sequencer_api := "" |} in
  all_printable (json_dumps_options (options_to_list g)) = true.
Proof.
  intros newline g c.
  apply (listing_is_printable_ascii g c). left. reflexivity.
Defined.

(** ** A teardown report on its own, and a whole session *)

Lemma total_duration_singleton phase rep :
  total_duration (<[phase := rep]> ∅) = rep_duration rep.
Proof.
  unfold total_duration. rewrite insert_empty, map_fold_singleton. ring.
Qed.

(** X17: a teardown report for a test that has no entry in the buffer, be it
    the only report of the test or a second teardown report, is answered with
    a finished message of its own: the outcome is [error], whatever the
    report says, and the duration and the details are those of the report. *)
Theorem lone_teardown_is_an_error (g : globals) (report : TestReport)
    (answer : post_result) :
  sequencer_reporting_enabled g = true ->
  rep_when report = "teardown" ->
  test_reports g !! rep_nodeid report = None ->
  posts (trace (pytest_runtest_logreport g report answer)) =
    [Post (target g)
       (test_finished (rep_nodeid report) "error" (rep_duration report)
          (rep_user_properties report))] /\
  test_reports (after (pytest_runtest_logreport g report answer)) = test_reports g.
Proof.
  intros Hen Hw Hnone.
  rewrite (logreport_teardown g report answer Hen Hw).
  cbn [trace after test_reports set_test_reports]. split.
  - rewrite deliver_posts. unfold finished_message, buffered.
    rewrite Hnone, Hw. cbn [default from_option].
    rewrite total_duration_singleton, collect_user_properties_order.
    unfold properties_of.
    rewrite lookup_insert_eq, !lookup_insert_ne, !lookup_empty by discriminate.
    cbn [app].
    assert (Hout : reconcile_outcome (<["teardown" := report]> ∅) = "error").
    { unfold reconcile_outcome.
      rewrite lookup_insert_eq, !lookup_insert_ne, !lookup_empty by discriminate.
      cbn [failed_unexpectedly orb]. destruct (_ && _); reflexivity. }
    rewrite Hout. reflexivity.
  - apply delete_id, Hnone.
Qed.

Lemma lone_teardown_is_an_error_witness :
  let report := mk_report "t.py::test_a" "teardown" "passed" (Q2Qc (1 # 2)) None in
  posts (trace (pytest_runtest_logreport enabled_globals report
                  (Raises (TransportError "refused")))) =
    [Post "http://localhost:8765//message"
       (test_finished "t.py::test_a" "error" (Q2Qc (1 # 2)) [])].
Proof.
  intros report.
  exact (proj1 (lone_teardown_is_an_error enabled_globals report _
                  eq_refl eq_refl eq_refl)).
Defined.

Lemma logstart_returns g nodeid answer :
  request_level answer -> raised (pytest_runtest_logstart g nodeid answer) = None.
Proof.
  intros Hlevel. unfold pytest_runtest_logstart.
  destruct (_ || _); [reflexivity|].
  pose proof (deliver_request_level g (test_started nodeid)
                ("Sent test_started message for " ++ nodeid)
                ("Failed to send test_started message for " ++ nodeid)
                answer Hlevel) as H.
  destruct (deliver _ _ _ _ _) as [tr exc]. exact H.
Qed.

Lemma logreport_returns g report answer :
  request_level answer \/ rep_when report <> "teardown" ->
  raised (pytest_runtest_logreport g report answer) = None.
Proof.
  intros H. destruct (sequencer_reporting_enabled g) eqn:Hen.
  - rewrite (logreport_enabled g report answer Hen). cbv zeta.
    destruct (String.eqb_spec (rep_when report) "teardown") as [Hw|Hw];
      [|reflexivity].
    destruct H as [Hlevel|Hne]; [|contradiction].
    cbn [raised]. apply deliver_request_level, Hlevel.
  - rewrite (logreport_disabled g report answer Hen). reflexivity.
Qed.

Lemma item_calls_return i :
  well_formed_item i ->
  request_level (item_start_answer i) ->
  request_level (item_finish_answer i) ->
  Forall (fun c => forall g, raised (call_hook g c) = None) (item_calls i).
Proof.
  intros (_ & Hearly & _ & _) Hstart Hfinish. unfold item_calls.
  constructor.
  { intros g. apply logstart_returns, Hstart. }
  apply Forall_app. split.
  - induction Hearly as [|ra rest [_ Hw] _ IH]; cbn [List.map]; constructor.
    + intros g. apply logreport_returns. right. exact Hw.
    + exact IH.
  - constructor; [|constructor].
    intros g. apply logreport_returns. left. exact Hfinish.
Qed.

(** X18: a session with reporting enabled and without the listing flag, in
    which the tests run one after the other and the HTTP client answers each
    attempt with a response, of whatever status, or with a
    [requests.RequestException], runs every test: no hook raises, there are
    two delivery attempts per test and no other, the started message and
    then the finished message of the test, all to the address of the command
    line followed by [/message], and the exit status is the one the host
    gives to a session in which no hook raised. *)
Theorem enabled_session_sends_two_per_test (c : config) (items : list test_item)
    (host_status : Z) :
  enable_sequencer_reporting c = true ->
  list_options c = false ->
  Forall well_formed_item items ->
  Forall (fun i => request_level (item_start_answer i) /\
                   request_level (item_finish_answer i)) items ->
  let session :=
    pytest_session c (concat (List.map item_calls items)) host_status in
  fst session = host_status /\
  posts (snd session) =
    concat (List.map
      (fun i =>
         [Post (sequencer_api c ++ "/message") (test_started (item_nodeid i));
          Post (sequencer_api c ++ "/message")
            (finished_message (item_nodeid i)
               (stored_reports (List.map fst (item_early i) ++ [item_teardown i])))])
      items).
Proof.
  intros Hen Hlist Hitems Hanswers session.
  unfold session, pytest_session, pytest_sessionstart.
  rewrite Hlist. cbn [raised after trace].
  set (g := after (pytest_configure (pytest_addoption initial_globals) c)).
  assert (Hg : sequencer_reporting_enabled g = true) by exact Hen.
  assert (Hfresh : Forall (fun i => well_formed_item i /\
                                    test_reports g !! item_nodeid i = None) items).
  { eapply Forall_impl; [exact Hitems|]. intros i Hwf. split; [exact Hwf|].
    apply lookup_empty. }
  assert (Hquiet : Forall (fun k => forall g, raised (call_hook g k) = None)
                          (concat (List.map item_calls items))).
  { clear Hfresh. induction Hitems as [|i rest Hwf _ IH]; [constructor|].
    cbn [List.map concat]. apply Forall_app.
    apply Forall_cons_1 in Hanswers. destruct Hanswers as [[Hstart Hfinish] Hrest].
    split; [apply item_calls_return; assumption|apply IH, Hrest]. }
  rewrite (run_test_loop_returns _ Hquiet g).
  destruct (run_items g items Hg Hfresh) as [_ Hposts].
  destruct (run_hooks g _) as [g' tr]. cbn [fst snd] in *.
  split; [reflexivity|].
  rewrite !posts_app, Hposts. unfold pytest_configure. cbn [trace].
  destruct (sequencer_reporting_enabled _); reflexivity.
Qed.

Lemma enabled_session_sends_two_per_test_witness :
  let ok := Returns {| status_code := 200; reason := "OK"; url := "" |} in
  let unavailable :=
    Returns {| status_code := 503; reason := "Service Unavailable"; url := "" |} in
  let refused := Raises (TransportError "Connection refused") in
  let c := {| enable_sequencer_reporting := true; list_options := false;
              sequencer_api := "http://gui:9000" |} in
  let test nodeid start_answer finish_answer :=
    {| item_nodeid := nodeid; item_start_answer := start_answer;
       item_early := [(mk_report nodeid "setup" "passed" 0%Qc None, ok);
                      (mk_report nodeid "call" "passed" 0%Qc None, ok)];
       item_teardown := mk_report nodeid "teardown" "passed" 0%Qc None;
       item_finish_answer := finish_answer |} in
  let items := [test "t.py::test_a" unavailable refused; test "t.py::test_b" ok ok] in
  let session := pytest_session c (concat (List.map item_calls items)) 1 in
  fst session = 1%Z /\
  posts (snd session) =
    [Post "http://gui:9000/message" (test_started "t.py::test_a");
     Post "http://gui:9000/message" (test_finished "t.py::test_a" "passed" 0%Qc []);
     Post "http://gui:9000/message" (test_started "t.py::test_b");
     Post "http://gui:9000/message" (test_finished "t.py::test_b" "passed" 0%Qc [])].
Proof.
  intros ok unavailable refused c test items session.
  assert (Hwf : Forall well_formed_item items).
  { repeat constructor; cbn; discriminate. }
  assert (Hanswers : Forall (fun i => request_level (item_start_answer i) /\
                                      request_level (item_finish_answer i)) items).
  { repeat constructor;
      first [apply request_level_returns | apply request_level_transport]. }
  destruct (enabled_session_sends_two_per_test c items 1 eq_refl eq_refl Hwf Hanswers)
    as [Hstatus Hposts].
  split; [exact Hstatus|]. unfold session. rewrite Hposts.
  vm_compute. reflexivity.
Defined.
